(** * rag-backend: the chunker, the text normalizer and the RAG orchestrator

    A shallow embedding of [app/services/document_service.py],
    [app/services/vector_service.py] and [app/services/rag_service.py],
    with the properties of the retrieval-augmented answer pipeline that
    the specification states about them.

    A Python [str] is a sequence of Unicode code points and is embedded
    as a list of code points; a Python [int] is a [Z]; a [dict] built with
    a fixed set of keys is a record, one used as a map is a
    [gmap string _]; a pydantic model is a record. Calls to the vector
    index, the embedding model, the language model and the clock go
    through a small monad that keeps the calls made and the events
    yielded. *)

From Stdlib Require Import ZArith NArith Lia Ascii String DecimalString.
From stdpp Require Import base tactics list gmap strings.

Open Scope Z_scope.

(** ** Python strings *)

Abbreviation str := (list N).

Module Py.

(** A literal of the source, code point by code point (ASCII literals only;
    other code points are written out where a literal has them). *)
Definition lit (s : string) : str := map N_of_ascii (list_ascii_of_string s).

Arguments lit : simpl never.

(** [len(s)], for a string or a list. *)
Definition len {A} (s : list A) : Z := Z.of_nat (length s).

(** [str.isspace] of one code point (CPython's [_PyUnicode_IsWhitespace]). *)
Definition isspace (c : N) : bool :=
  ((9 <=? c) && (c <=? 13) || (28 <=? c) && (c <=? 32) || (c =? 133) || (c =? 160)
   || (c =? 5760) || (8192 <=? c) && (c <=? 8202) || (c =? 8232) || (c =? 8233)
   || (c =? 8239) || (c =? 8287) || (c =? 12288))%N.

(** The line boundaries of [str.splitlines] (CPython's
    [_PyUnicode_IsLinebreak]). *)
Definition islinebreak (c : N) : bool :=
  ((10 <=? c) && (c <=? 13) || (28 <=? c) && (c <=? 30) || (c =? 133)
   || (c =? 8232) || (c =? 8233))%N.

(** How a slice bound is read against a sequence of length [n]: a negative
    bound counts from the end, and the result is clipped to [0..n]. *)
Definition adjust (n i : Z) : Z :=
  if i <? 0 then Z.max 0 (i + n) else Z.min i n.

(** [s[start:stop]] *)
Definition slice (s : str) (start stop : Z) : str :=
  let a := adjust (len s) start in
  let b := adjust (len s) stop in
  take (Z.to_nat (b - a)) (drop (Z.to_nat a) s).

(** The highest index [i] with [lo <= i < hi] and [s[i] = c], scanning [s]
    from index [i0]; [best] when there is none. *)
Fixpoint rfind_scan (s : str) (c : N) (lo hi i0 best : Z) : Z :=
  match s with
  | [] => best
  | x :: s' =>
      rfind_scan s' c lo hi (i0 + 1)
        (if (lo <=? i0) && (i0 <? hi) && (x =? c)%N then i0 else best)
  end.

(** [s.rfind(c, start, stop)] for a one-character needle [c]: the bounds
    are read as slice bounds ([window_lo], [window_hi]: a negative bound
    counts from the end, the upper one is clipped to the length), and the
    result is [-1] when [c] does not occur in the window. *)
Definition window_lo (n start : Z) : Z :=
  if start <? 0 then Z.max 0 (start + n) else start.

Definition window_hi (n stop : Z) : Z :=
  if n <? stop then n else if stop <? 0 then Z.max 0 (stop + n) else stop.

Definition rfind (s : str) (c : N) (start stop : Z) : Z :=
  rfind_scan s c (window_lo (len s) start) (window_hi (len s) stop) 0 (-1).

Fixpoint lstrip (s : str) : str :=
  match s with
  | [] => []
  | c :: s' => if isspace c then lstrip s' else s
  end.

Fixpoint rstrip (s : str) : str :=
  match s with
  | [] => []
  | c :: s' =>
      match rstrip s' with
      | [] => if isspace c then [] else [c]
      | r => c :: r
      end
  end.

(** [s.strip()] *)
Definition strip (s : str) : str := rstrip (lstrip s).

(** [s.startswith(prefix)] *)
Fixpoint startswith (s prefix : str) : bool :=
  match prefix, s with
  | [], _ => true
  | _ :: _, [] => false
  | p :: prefix', c :: s' => (c =? p)%N && startswith s' prefix'
  end.

(** [sep.join(parts)] *)
Fixpoint join (sep : str) (parts : list str) : str :=
  match parts with
  | [] => []
  | [p] => p
  | p :: ps => p ++ sep ++ join sep ps
  end.

(** [s.split()]: the maximal runs of non-whitespace; [cur] is the run being
    read, last character first. *)
Fixpoint split_from (cur : str) (s : str) : list str :=
  match s with
  | [] => match cur with [] => [] | _ => [rev cur] end
  | c :: s' =>
      if isspace c then
        match cur with
        | [] => split_from [] s'
        | _ => rev cur :: split_from [] s'
        end
      else split_from (c :: cur) s'
  end.

Definition split (s : str) : list str := split_from [] s.

(** [s.splitlines()]: the lines between line boundaries, a carriage return
    followed by a line feed being one boundary, and no empty last line
    after a final boundary. *)
Fixpoint splitlines_from (cur : str) (s : str) : list str :=
  match s with
  | [] => match cur with [] => [] | _ => [rev cur] end
  | c :: s' =>
      if islinebreak c then
        match s' with
        | c' :: s'' =>
            if (c =? 13)%N && (c' =? 10)%N then rev cur :: splitlines_from [] s''
            else rev cur :: splitlines_from [] s'
        | [] => rev cur :: splitlines_from [] s'
        end
      else splitlines_from (c :: cur) s'
  end.

Definition splitlines (s : str) : list str := splitlines_from [] s.

(** [s.replace(a, b)] for one-character [a] and [b]. *)
Definition replace (a b : N) (s : str) : str :=
  map (fun c => if (c =? a)%N then b else c) s.

(** [str(n)] for an [int]. *)
Definition str_of_int (n : Z) : str := lit (DecimalString.NilZero.string_of_int (Z.to_int n)).

End Py.

(** ** [document_service.py] *)

Module document_service.

(** A value stored under the ["page"] key: the page number or a string. *)
Inductive page_value :=
| PageInt (n : Z)
| PageStr (s : str).

(** The dictionary [_split_into_chunks] appends for one chunk; the three
    entries of its ["metadata"] dictionary are the last three fields. *)
Record chunk := {
  document_id : str;
  chunk_index : Z;
  content : str;
  filename : str;
  page : page_value;
  start_pos : Z;
  end_pos : Z;
  length : Z
}.

(** The locals of the chunking loop that live across iterations. *)
Record loop_state := {
  start : Z;
  next_index : Z;
  chunks : list chunk
}.

Section split_into_chunks.

Variable text : str.
Variable doc_id : str.
Variable file_name : option str.
Variable page_no : option Z.
Variable chunk_size : Z.
Variable chunk_overlap : Z.

(** The end position chosen for the chunk that begins at [start]. *)
Definition chunk_end (start : Z) : Z :=
  let end_ := start + chunk_size in
  if end_ <? Py.len text then
    let last_period := Py.rfind text 46 (end_ - 100) end_ in
    let last_exclamation := Py.rfind text 33 (end_ - 100) end_ in
    let last_question := Py.rfind text 63 (end_ - 100) end_ in
    let sentence_end := Z.max (Z.max last_period last_exclamation) last_question in
    if start <? sentence_end then sentence_end + 1 else end_
  else end_.

(** [start = end - chunk_overlap if end < len(text) else end] *)
Definition next_start (start : Z) : Z :=
  let end_ := chunk_end start in
  if end_ <? Py.len text then end_ - chunk_overlap else end_.

Definition make_chunk (index start end_ : Z) (chunk_text : str) : chunk :=
  {| document_id := doc_id;
     chunk_index := index;
     content := chunk_text;
     filename := match file_name with
                 | Some ((_ :: _) as f) => f
                 | _ => Py.lit "unknown"
                 end;
     page := match page_no with
             | Some p => PageInt p
             | None => PageStr (Py.lit "unknown")
             end;
     start_pos := start;
     end_pos := end_;
     length := Py.len chunk_text |}.

(** One iteration of the [while] loop. *)
Definition loop_body (st : loop_state) : loop_state :=
  let end_ := chunk_end (start st) in
  let chunk_text := Py.strip (Py.slice text (start st) end_) in
  match chunk_text with
  | [] =>
      {| start := next_start (start st);
         next_index := next_index st;
         chunks := chunks st |}
  | _ :: _ =>
      {| start := next_start (start st);
         next_index := next_index st + 1;
         chunks := chunks st ++ [make_chunk (next_index st) (start st) end_ chunk_text] |}
  end.

(** [while start < len(text): ...], run for at most [fuel] iterations;
    [None] when the loop is still running after them. *)
Fixpoint loop (fuel : nat) (st : loop_state) : option (list chunk) :=
  if start st <? Py.len text then
    match fuel with
    | O => None
    | S fuel' => loop fuel' (loop_body st)
    end
  else Some (chunks st).

Definition _split_into_chunks (fuel : nat) : option (list chunk) :=
  loop fuel {| start := 0; next_index := 0; chunks := [] |}.

End split_into_chunks.


(** The replacement of the control characters other than newline and tab. *)
Definition scrub (ch : N) : N :=
  if ((ch =? 10) || (ch =? 9) || (32 <=? ch))%N then ch else 32%N.

Definition _clean_text (text : str) : str :=
  match text with
  | [] => []
  | _ :: _ =>
      let cleaned := Py.replace 0 32 text in
      let cleaned := map scrub cleaned in
      let lines := map (fun line => Py.join [32%N] (Py.split line)) (Py.splitlines cleaned) in
      Py.join [10%N] (filter (fun line => line <> []) lines)
  end.

(** What [scrub] lets through: newline, tab and everything from the space up. *)
Definition kept_char (c : N) : Prop := (c = 10 \/ c = 9 \/ 32 <= c)%N.

(** The shape of normalized text: words of characters that are neither
    whitespace nor control characters, single spaces between the words of a
    line, single newlines between non-empty lines. *)
Definition word_char (c : N) : Prop := Py.isspace c = false /\ (32 <= c)%N.

Definition word (w : str) : Prop := w <> [] /\ Forall word_char w.

Definition normal_line (l : str) : Prop :=
  l <> [] /\ exists ws, l = Py.join [32%N] ws /\ Forall word ws.

End document_service.

(** ** Floating-point numbers

    The orchestrator only passes floats around, subtracts two clock
    readings, turns a distance into a similarity and rounds it. The
    operations it uses are taken as an interface. *)

Class FloatOps := {
  float : Type;
  float_zero : float;
  float_one : float;
  float_sub : float -> float -> float;
  (** [bool(x)] *)
  float_truth : float -> bool;
  (** [round(x, ndigits)] *)
  float_round : float -> Z -> float
}.

(** Fixed-point numbers, counted in thousandths, for evaluating a run on
    concrete data: rounding to three decimals leaves them as they are. *)
Definition half_even (x m : Z) : Z :=
  let q := x / m in
  let r := x mod m in
  if 2 * r <? m then q * m
  else if m <? 2 * r then (q + 1) * m
  else if Z.even q then q * m else (q + 1) * m.

Definition thousandths : FloatOps :=
  {| float := Z;
     float_zero := 0;
     float_one := 1000;
     float_sub := Z.sub;
     float_truth := fun x => negb (x =? 0);
     float_round := fun x ndigits =>
       if 3 <=? ndigits then x else half_even x (10 ^ (3 - ndigits)) |}.

(** ** [models/document.py] and [models/chat.py] *)

(** The entries of a chunk's metadata dictionary that the services read,
    typed as [add_document_chunks] stores them; a key may be missing. *)
Module Metadata.
Record t := mk {
  document_id : option str;
  chunk_index : option Z;
  filename : option str;
  page : option document_service.page_value
}.
End Metadata.

Module DocumentChunk.
Section fields.
Context `{FloatOps}.
Record t := mk {
  id : str;
  document_id : str;
  chunk_index : Z;
  content : str;
  metadata : Metadata.t;
  similarity_score : option float
}.
End fields.
End DocumentChunk.

Module ChatSource.
Section fields.
Context `{FloatOps}.
Record t := mk {
  document_id : str;
  filename : str;
  page : option str;
  content_preview : str;
  similarity_score : float
}.
End fields.
End ChatSource.

(** A value of the [model_info] dictionary. *)
Inductive info_value `{FloatOps} :=
| InfoStr (s : str)
| InfoBool (b : bool)
| InfoInt (n : Z)
| InfoFloat (x : float).

Module ChatResponse.
Section fields.
Context `{FloatOps}.
Record t := mk {
  answer : str;
  sources : list ChatSource.t;
  model_info : gmap string info_value;
  processing_time : float;
  tokens_used : option Z
}.
End fields.
End ChatResponse.

(** ** The collaborators and the effects of a request *)

(** The outcome of a call: a value, or an exception [e] of class
    [Exception], kept as its message [str(e)]. *)
Inductive result (A : Type) : Type :=
| Ok (a : A)
| Raise (e : str).

Arguments Ok {A} a.
Arguments Raise {A} e.

Module external.
Section external.
Context `{FloatOps}.

(** What a Chroma collection answers to a query: one inner list per query
    embedding. *)
Record query_result := {
  ids : list (list str);
  documents : option (list (list str));
  metadatas : list (list Metadata.t);
  distances : list (list float)
}.

(** A Chroma collection, with its [query] method. *)
Record collection := {
  query : list (list float) -> Z -> result query_result
}.

(** The dictionary [generate_response] returns. *)
Record llm_response := {
  content : option str;
  usage : option (gmap string Z);
  model : option str
}.

(** One run of the streaming generator: the fragments it yields, in order,
    and the exception that ends it when it does not end normally. *)
Record token_stream := {
  fragments : list str;
  failure : option str
}.

(** The Chroma client, the embedding model, the LM Studio service and the
    clock, as the services call them. *)
Record t := {
  get_collection : str -> result collection;
  encode : list str -> result (list (list float));
  generate_response : list (gmap string str) -> float -> Z -> result llm_response;
  generate_streaming_response : list (gmap string str) -> float -> Z -> token_stream;
  time : nat -> float
}.

End external.
End external.

Module effects.
Section effects.
Context `{FloatOps}.

(** A stream event: the dictionary [stream_query] yields, by its ["type"]:
    ["sources_search"], ["answer"], ["sources"], ["generation_start"],
    ["token"], ["error"], ["done"]. *)
Inductive event :=
| SourcesSearch (message : str)
| Answer (content : str) (done : bool)
| Sources (sources : list ChatSource.t)
| GenerationStart (message : str)
| Token (content : str)
| Error (error : str)
| Done (done : bool).

(** A call made to a collaborator. *)
Inductive call :=
| GetCollection (name : str)
| Encode (texts : list str)
| Query (n_results : Z)
| GenerateResponse (messages : list (gmap string str)) (temperature : float) (max_tokens : Z)
| GenerateStreamingResponse (messages : list (gmap string str)) (temperature : float)
    (max_tokens : Z).

(** What a request leaves behind: the number of clock readings taken, the
    calls made to the collaborators and the events yielded so far. *)
Record world := {
  ticks : nat;
  calls : list call;
  emitted : list event
}.

Definition start_of_request : world := {| ticks := 0; calls := []; emitted := [] |}.

(** The calls that invoke the Answer Generator. *)
Definition generator_call (c : call) : Prop :=
  match c with
  | GenerateResponse _ _ _ | GenerateStreamingResponse _ _ _ => True
  | _ => False
  end.

(** A computation that may raise and that leaves its calls and events
    behind even when it does. *)
Definition M (A : Type) : Type := world -> result A * world.

Definition ret {A} (a : A) : M A := fun w => (Ok a, w).

Definition bind {A B} (c : M A) (k : A -> M B) : M B :=
  fun w => match c w with
           | (Ok a, w') => k a w'
           | (Raise e, w') => (Raise e, w')
           end.

Definition raise {A} (e : str) : M A := fun w => (Raise e, w).

(** [try: body  except Exception as e: handler(str(e))] *)
Definition try_except {A} (body : M A) (handler : str -> M A) : M A :=
  fun w => match body w with
           | (Ok a, w') => (Ok a, w')
           | (Raise e, w') => handler e w'
           end.

Definition of_result {A} (r : result A) : M A := fun w => (r, w).

Definition record_call (c : call) : M unit :=
  fun w => (Ok tt, {| ticks := ticks w; calls := calls w ++ [c]; emitted := emitted w |}).

Definition add_events (w : world) (evs : list event) : world :=
  {| ticks := ticks w; calls := calls w; emitted := emitted w ++ evs |}.

(** [yield ev] *)
Definition yield (ev : event) : M unit :=
  fun w => (Ok tt, {| ticks := ticks w; calls := calls w; emitted := emitted w ++ [ev] |}).

(** [time.time()] *)
Definition time_time (env : external.t) : M float :=
  fun w => (Ok (external.time env (ticks w)),
            {| ticks := S (ticks w); calls := calls w; emitted := emitted w |}).

(** [seq[i]] *)
Definition getitem {A} (l : list A) (i : nat) : M A :=
  match l !! i with
  | Some a => ret a
  | None => raise (Py.lit "list index out of range")
  end.

End effects.
End effects.

Notation "'let*' x := c 'in' k" := (effects.bind c (fun x => k))
  (at level 10, x name, c at level 100, k at level 200).

(** ** [vector_service.py] *)

Module vector_service.
Section vector_service.
Context `{FloatOps}.
Variable env : external.t.

Import effects.

(** The body of the loop over [enumerate(zip(documents, metadatas, distances))],
    from row [i] on. *)
Fixpoint collect_chunks (results : external.query_result) (i : nat)
    (rows : list (str * Metadata.t * float)) (chunks : list DocumentChunk.t)
    : M (list DocumentChunk.t) :=
  match rows with
  | [] => ret chunks
  | (doc, metadata, distance) :: rows' =>
      let* ids0 := getitem (external.ids results) 0 in
      let* id := getitem ids0 i in
      let chunk :=
        DocumentChunk.mk id
          (default [] (Metadata.document_id metadata))
          (default 0 (Metadata.chunk_index metadata))
          doc metadata
          (Some (float_sub float_one distance)) in
      collect_chunks results (S i) rows' (chunks ++ [chunk])
  end.

Definition similarity_search (query : str) (collection_name : str) (k : Z)
    : M (list DocumentChunk.t) :=
  try_except
    (let* _ := record_call (GetCollection collection_name) in
     let* collection := of_result (external.get_collection env collection_name) in
     let* query_emb :=
       try_except
         (let* _ := record_call (Encode [query]) in
          let* emb := of_result (external.encode env [query]) in
          ret (Some emb))
         (fun _ => ret None) in
     match query_emb with
     | None => ret []
     | Some query_emb =>
         let* _ := record_call (Query k) in
         let* results := of_result (external.query collection query_emb k) in
         match external.documents results with
         | Some (((_ :: _) as documents0) :: _) =>
             let* metadatas0 := getitem (external.metadatas results) 0 in
             let* distances0 := getitem (external.distances results) 0 in
             collect_chunks results 0 (zip (zip documents0 metadatas0) distances0) []
         | _ => ret []
         end
     end)
    (fun _ => ret []).

(** What a search returns, and the calls it makes, at the start of a request. *)
Definition retrieved (query : str) (collection_name : str) (k : Z) : list DocumentChunk.t :=
  match fst (similarity_search query collection_name k start_of_request) with
  | Ok chunks => chunks
  | Raise _ => []
  end.

Definition retrieval_calls (query : str) (collection_name : str) (k : Z) : list call :=
  calls (snd (similarity_search query collection_name k start_of_request)).

End vector_service.
End vector_service.

(** ** [rag_service.py] *)

Module rag_service.
Section rag_service.
Context `{FloatOps}.
Variable env : external.t.

Import effects.

(** How an f-string renders a page entry. *)
Definition format_page (p : document_service.page_value) : str :=
  match p with
  | document_service.PageInt n => Py.str_of_int n
  | document_service.PageStr s => s
  end.

(** The block of [_prepare_context] for the chunk with ordinal [i]. *)
Definition context_part (i : Z) (chunk : DocumentChunk.t) : str :=
  let filename :=
    default (Py.lit "Nieznany dokument") (Metadata.filename (DocumentChunk.metadata chunk)) in
  let page :=
    default (document_service.PageStr (Py.lit "nieznana"))
      (Metadata.page (DocumentChunk.metadata chunk)) in
  Py.strip
    ([10%N] ++ Py.lit "[Source " ++ Py.str_of_int i ++ Py.lit "]" ++ [10%N]
     ++ Py.lit "Document: " ++ filename ++ [10%N]
     ++ Py.lit "Page: " ++ format_page page ++ [10%N]
     ++ Py.lit "Content: " ++ DocumentChunk.content chunk ++ [10%N]
     ++ Py.lit "            ").


(** [for i, chunk in enumerate(chunks, 1): context_parts.append(...)] *)
Definition _prepare_context (chunks : list DocumentChunk.t) : str :=
  let context_parts :=
    snd (fold_left
           (fun '(i, context_parts) chunk => (i + 1, context_parts ++ [context_part i chunk]))
           chunks (1, [])) in
  Py.join [10%N; 10%N] context_parts.

Definition system_prompt : str :=
  Py.lit "You are a helpful AI assistant for document analysis. " ++ [10%N; 10%N]
  ++ Py.lit "RULES:" ++ [10%N]
  ++ Py.lit "- Answer ONLY based on the provided sources." ++ [10%N]
  ++ Py.lit "- If the information is not in the sources, write exactly: " ++ [34%N]
  ++ Py.lit "Information not found in documents." ++ [34%N; 10%N]
  ++ Py.lit "- Do not repeat the user's question or include prefixes like " ++ [34%N]
  ++ Py.lit "User:" ++ [34%N] ++ Py.lit "." ++ [10%N]
  ++ Py.lit "- Avoid repetition and verbosity; be concise and clear." ++ [10%N; 10%N]
  ++ Py.lit "OUTPUT FORMAT (Markdown):" ++ [10%N]
  ++ Py.lit "Answer: <1" ++ [8211%N] ++ Py.lit "2 sentences>" ++ [10%N]
  ++ Py.lit "Rationale:" ++ [10%N]
  ++ Py.lit "- <up to 2" ++ [8211%N] ++ Py.lit "4 brief bullet points>" ++ [10%N].

Definition _create_rag_prompt (query context : str) : list (gmap string str) :=
  let user_prompt :=
    [10%N] ++ Py.lit "Answer the question based on the following document fragments."
    ++ [10%N; 10%N] ++ Py.lit "AVAILABLE SOURCES:" ++ [10%N]
    ++ context ++ [10%N; 10%N]
    ++ Py.lit "QUESTION: " ++ query in
  [ {[ "role" := Py.lit "system"; "content" := system_prompt ]};
    {[ "role" := Py.lit "user"; "content" := user_prompt ]} ].

(** The citation built for one chunk. *)
Definition source_of_chunk (chunk : DocumentChunk.t) : ChatSource.t :=
  ChatSource.mk
    (DocumentChunk.document_id chunk)
    (default (Py.lit "Unknown document") (Metadata.filename (DocumentChunk.metadata chunk)))
    (Some (format_page
             (default (document_service.PageStr (Py.lit "unknown"))
                (Metadata.page (DocumentChunk.metadata chunk)))))
    (if 200 <? Py.len (DocumentChunk.content chunk)
     then Py.slice (DocumentChunk.content chunk) 0 200 ++ Py.lit "..."
     else DocumentChunk.content chunk)
    (float_round
       (match DocumentChunk.similarity_score chunk with
        | Some x => if float_truth x then x else float_zero
        | None => float_zero
        end) 3).

(** [for chunk in chunks: sources.append(ChatSource(...))] *)
Definition _prepare_sources (chunks : list DocumentChunk.t) : list ChatSource.t :=
  fold_left (fun sources chunk => sources ++ [source_of_chunk chunk]) chunks [].

Definition no_documents_answer : str :=
  Py.lit "I couldn't find any relevant documents to answer your question. Try uploading relevant documents to the collection or ask a different question.".

(** ["Przepraszam, wystąpił błąd podczas przetwarzania pytania: "] *)
Definition error_answer_prefix : str :=
  Py.lit "Przepraszam, wyst" ++ [261%N] ++ Py.lit "pi" ++ [322%N] ++ Py.lit " b"
  ++ [322%N; 261%N] ++ Py.lit "d podczas przetwarzania pytania: ".

Definition default_model : str := Py.lit "llama-3.1-8b-instruct".

Definition query (query : str) (collection : str) (max_sources : Z) (temperature : float)
    : M ChatResponse.t :=
  let* start_time := time_time env in
  try_except
    (let* relevant_chunks :=
       vector_service.similarity_search env query collection max_sources in
     match relevant_chunks with
     | [] =>
         let* now := time_time env in
         ret (ChatResponse.mk
                no_documents_answer
                []
                {[ "model" := InfoStr default_model;
                   "local" := InfoBool true;
                   "chunks_used" := InfoInt 0 ]}
                (float_sub now start_time)
                None)
     | _ :: _ =>
         let context := _prepare_context relevant_chunks in
         let messages := _create_rag_prompt query context in
         let* _ := record_call (GenerateResponse messages temperature 300) in
         let* llm_response :=
           of_result (external.generate_response env messages temperature 300) in
         let sources := _prepare_sources relevant_chunks in
         let* answer :=
           match external.content llm_response with
           | Some content => ret content
           | None => raise (Py.lit "'content'")
           end in
         let* now := time_time env in
         ret (ChatResponse.mk
                answer
                sources
                {[ "model" := InfoStr (default default_model (external.model llm_response));
                   "local" := InfoBool true;
                   "chunks_used" := InfoInt (Py.len relevant_chunks);
                   "temperature" := InfoFloat temperature ]}
                (float_sub now start_time)
                (default ∅ (external.usage llm_response) !! "total_tokens"))
     end)
    (fun e =>
       let* now := time_time env in
       ret (ChatResponse.mk
              (error_answer_prefix ++ e)
              []
              {[ "error" := InfoStr e ]}
              (float_sub now start_time)
              None)).

(** A fragment that is not tagged as an error. *)
Definition plain (fragment : str) : Prop := Py.startswith fragment (Py.lit "ERROR:") = false.

(** The [async for] loop over the fragments of the generator: an
    error-tagged fragment is yielded as an [error] event and leaves the loop
    ([break]); [failure] is the exception the generator raises after its
    last fragment, if any. *)
Fixpoint stream_tokens (tokens : list str) (failure : option str) : M unit :=
  match tokens with
  | [] => match failure with
          | None => ret tt
          | Some e => raise e
          end
  | token :: tokens' =>
      if Py.startswith token (Py.lit "ERROR:")
      then yield (Error token)
      else let* _ := yield (Token token) in stream_tokens tokens' failure
  end.

Definition stream_query (query : str) (collection : str) (max_sources : Z)
    (temperature : float) : M unit :=
  try_except
    (let* _ := yield (SourcesSearch (Py.lit "Searching for relevant documents...")) in
     let* relevant_chunks :=
       vector_service.similarity_search env query collection max_sources in
     match relevant_chunks with
     | [] =>
         yield (Answer (Py.lit "No relevant documents were found to answer this question.")
                  true)
     | _ :: _ =>
         let sources := _prepare_sources relevant_chunks in
         let* _ := yield (Sources sources) in
         let context := _prepare_context relevant_chunks in
         let messages := _create_rag_prompt query context in
         let* _ := yield (GenerationStart (Py.lit "Generating answer...")) in
         let* _ := record_call (GenerateStreamingResponse messages temperature 300) in
         let stream := external.generate_streaming_response env messages temperature 300 in
         let* _ := stream_tokens (external.fragments stream) (external.failure stream) in
         yield (Done true)
     end)
    (fun e => yield (Error e)).

(** The events a consumer of [stream_query] receives. *)
Definition events_of (stream : M unit) : list event :=
  emitted (snd (stream start_of_request)).

End rag_service.
End rag_service.

(** ** A deployment on concrete data

    One indexed chunk, and collaborators whose answers are given: the
    Chroma client's answer to [get_collection], the embedding model's answer
    to [encode], and the two answers of the LM Studio service. *)

Module scenario.
Section scenario.
Local Existing Instance thousandths.

Definition cats_metadata : Metadata.t :=
  Metadata.mk (Some (Py.lit "d1")) (Some 0) (Some (Py.lit "cats.txt"))
    (Some (document_service.PageInt 1)).

Definition cats_hit : external.query_result :=
  {| external.ids := [[Py.lit "c1"]];
     external.documents := Some [[Py.lit "Cats purr."]];
     external.metadatas := [[cats_metadata]];
     external.distances := [[250]] |}.

Definition cats_index : external.collection :=
  {| external.query := fun _ _ => Ok cats_hit |}.

Definition deployment (collection : result external.collection)
    (embedding : result (list (list float))) (answer : result external.llm_response)
    (stream : external.token_stream) : external.t :=
  {| external.get_collection := fun _ => collection;
     external.encode := fun _ => embedding;
     external.generate_response := fun _ _ _ => answer;
     external.generate_streaming_response := fun _ _ _ => stream;
     external.time := fun n => 1000 * Z.of_nat n |}.

Definition purring : external.llm_response :=
  {| external.content := Some (Py.lit "Answer: they purr.");
     external.usage := Some {[ "total_tokens" := 42 ]};
     external.model := None |}.

Definition silent : external.token_stream :=
  {| external.fragments := []; external.failure := None |}.

End scenario.
End scenario.

(** ** [vector_service.py]: hits and the indexing of chunks *)

Module VectorService.
Section VectorService.
Context `{FloatOps}.

(** The chunk [similarity_search] builds for the hit with identifier [id]:
    its document, its metadata and its distance. *)
Definition chunk_of_hit (id : str) (hit : str * Metadata.t * float) : DocumentChunk.t :=
  let '(doc, metadata, distance) := hit in
  DocumentChunk.mk id
    (default [] (Metadata.document_id metadata))
    (default 0 (Metadata.chunk_index metadata))
    doc metadata
    (Some (float_sub float_one distance)).

(** The metadata dictionary [add_document_chunks] stores with a chunk: the
    four entries it names and the three of the chunk's own ["metadata"]
    dictionary. *)
Record stored_metadata := {
  document_id : str;
  chunk_index : Z;
  filename : str;
  page : document_service.page_value;
  start_pos : Z;
  end_pos : Z;
  length : Z
}.

Definition metadata_of_chunk (chunk : document_service.chunk) : stored_metadata :=
  {| document_id := document_service.document_id chunk;
     chunk_index := document_service.chunk_index chunk;
     filename := document_service.filename chunk;
     page := document_service.page chunk;
     start_pos := document_service.start_pos chunk;
     end_pos := document_service.end_pos chunk;
     length := document_service.length chunk |}.

(** A Chroma collection, with its [add] method. *)
Record writable_collection := {
  add : list str -> list str -> list stored_metadata -> list (list float) -> result unit
}.

(** The Chroma client, the embedding model and the source of identifiers
    ([n]-th draw of [uuid.uuid4()]), as [add_document_chunks] uses them. *)
Record index := {
  get_collection : str -> result writable_collection;
  encode : list str -> result (list (list float));
  uuid4 : nat -> str
}.

Inductive index_call :=
| GetCollection (name : str)
| Encode (documents : list str)
| Add (ids : list str) (documents : list str) (metadatas : list stored_metadata)
    (embeddings : list (list float)).

(** The three lists built by the loop over the chunks. *)
Definition prepare_data (ix : index) (chunks : list document_service.chunk)
    : list str * list str * list stored_metadata :=
  fold_left
    (fun '(ids, documents, metadatas) chunk =>
       let chunk_id := uuid4 ix (List.length ids) in
       (ids ++ [chunk_id],
        documents ++ [document_service.content chunk],
        metadatas ++ [metadata_of_chunk chunk]))
    chunks ([], [], []).

(** [add_document_chunks]: what it returns and the calls it makes. *)
Definition add_document_chunks (ix : index) (collection_name : str)
    (chunks : list document_service.chunk) : bool * list index_call :=
  match get_collection ix collection_name with
  | Raise _ => (false, [GetCollection collection_name])
  | Ok collection =>
      let '(ids, documents, metadatas) := prepare_data ix chunks in
      match encode ix documents with
      | Raise _ => (false, [GetCollection collection_name; Encode documents])
      | Ok embeddings =>
          match add collection ids documents metadatas embeddings with
          | Ok _ =>
              (true, [GetCollection collection_name; Encode documents;
                      Add ids documents metadatas embeddings])
          | Raise _ =>
              (false, [GetCollection collection_name; Encode documents;
                       Add ids documents metadatas embeddings])
          end
      end
  end.

End VectorService.
End VectorService.

(** ** [llm_service.py] *)

Module LMStudioService.
Section LMStudioService.
Context `{FloatOps}.

(** [json.loads(data)] followed by [chunk["choices"][0].get("text", "")]:
    the text, a [JSONDecodeError], or another exception. *)
Inductive decoded :=
| Text (content : str)
| NotJson
| Failed (e : str).

(** What the HTTP stream delivers: its lines, and the exception that
    breaks it when it does not end normally. *)
Record line_stream := {
  lines : list str;
  broken : option str
}.

(** The LM Studio server as the service sees it: the status code of
    [GET /models] (or the exception), the stream that answers a completion
    request (prompt, temperature, token budget), and the decoding of a data
    line. *)
Record server := {
  models_status : result Z;
  post_stream : str -> float -> Z -> line_stream;
  choice_text : str -> decoded
}.

Definition check_server_status (lm : server) : bool :=
  match models_status lm with
  | Ok status => status =? 200
  | Raise _ => false
  end.

(** The loop of [_messages_to_prompt]; [KeyError] when a message lacks a key. *)
Fixpoint prompt_parts (messages : list (gmap string str)) (parts : list str)
    : result (list str) :=
  match messages with
  | [] => Ok parts
  | message :: messages' =>
      match message !! "role" with
      | None => Raise (Py.lit "'role'")
      | Some role =>
          match message !! "content" with
          | None => Raise (Py.lit "'content'")
          | Some content =>
              if bool_decide (role = Py.lit "system") then
                prompt_parts messages'
                  (parts ++ [Py.lit "System: " ++ content ++ [10%N; 10%N]])
              else if bool_decide (role = Py.lit "user") then
                prompt_parts messages'
                  (parts ++ [Py.lit "User: " ++ content ++ [10%N; 10%N]])
              else if bool_decide (role = Py.lit "assistant") then
                prompt_parts messages'
                  (parts ++ [Py.lit "Assistant: " ++ content ++ [10%N; 10%N]])
              else prompt_parts messages' parts
          end
      end
  end.

Definition _messages_to_prompt (messages : list (gmap string str)) : result str :=
  match prompt_parts messages [] with
  | Ok parts => Ok (Py.join [] (parts ++ [Py.lit "Assistant:"]))
  | Raise e => Raise e
  end.

(** The loop over the lines of the stream, inside the [try]: the fragments
    it yields. *)
Fixpoint read_lines (lm : server) (lines : list str) (broken : option str) : list str :=
  match lines with
  | [] =>
      match broken with
      | None => []
      | Some e => [Py.lit "ERROR: " ++ e]
      end
  | line :: lines' =>
      if Py.startswith line (Py.lit "data: ") then
        let data := Py.slice line 6 (Py.len line) in
        if bool_decide (data = Py.lit "[DONE]") then []
        else
          match choice_text lm data with
          | Text [] => read_lines lm lines' broken
          | Text content => content :: read_lines lm lines' broken
          | NotJson => read_lines lm lines' broken
          | Failed e => [Py.lit "ERROR: " ++ e]
          end
      else read_lines lm lines' broken
  end.

Definition generate_streaming_response (lm : server) (messages : list (gmap string str))
    (temperature : float) (max_tokens : Z) : external.token_stream :=
  if check_server_status lm then
    match _messages_to_prompt messages with
    | Raise e => {| external.fragments := []; external.failure := Some e |}
    | Ok prompt =>
        let stream := post_stream lm prompt temperature max_tokens in
        {| external.fragments := read_lines lm (lines stream) (broken stream);
           external.failure := None |}
    end
  else
    {| external.fragments := [Py.lit "ERROR: LM Studio server is not running!"];
       external.failure := None |}.

End LMStudioService.
End LMStudioService.

(** ** [config.py]: the chunking configuration *)

Module config.

Record Settings := {
  chunk_size : Z;
  chunk_overlap : Z
}.

(** The values of the class, used unless the environment overrides them. *)
Definition defaults : Settings := {| chunk_size := 800; chunk_overlap := 200 |}.

End config.

(** ** [document_service.py]: the documents in memory and their processing *)

Module DocumentService.

Inductive DocumentStatus := UPLOADING | PROCESSING | COMPLETED | FAILED.

(** [status.value] *)
Definition value (status : DocumentStatus) : str :=
  match status with
  | UPLOADING => Py.lit "uploading"
  | PROCESSING => Py.lit "processing"
  | COMPLETED => Py.lit "completed"
  | FAILED => Py.lit "failed"
  end.

(** What the libraries read from the file at [file_path]:
    [file_path.suffix.lower()], the [extract_text()] of each page of the
    PDF reader, the texts of the paragraphs of the DOCX document, and the
    decoded content that [_extract_plain_text] returns. *)
Record file := {
  file_extension : str;
  pdf_pages : result (list (option str));
  docx_paragraphs : result (list str);
  _extract_plain_text : result str
}.

(** The file of a document on the disk, as [delete_document] meets it. *)
Record disk := {
  exists_ : result bool;
  unlink : result unit
}.

(** [enumerate(items, n)] *)
Fixpoint enumerate {A : Type} (n : Z) (items : list A) : list (Z * A) :=
  match items with
  | [] => []
  | item :: items' => (n, item) :: enumerate (n + 1) items'
  end.

Definition _extract_pdf_pages (f : file) : result (list (Z * str)) :=
  match pdf_pages f with
  | Raise e => Raise e
  | Ok pages => Ok (enumerate 1 (map (default []) pages))
  end.

Definition _extract_pdf_text (f : file) : result str :=
  match pdf_pages f with
  | Raise e => Raise e
  | Ok pages =>
      Ok (fold_left
            (fun text '(page_num, page_text) =>
               text ++ [10%N; 10%N] ++ Py.lit "--- Page " ++ Py.str_of_int page_num
                    ++ Py.lit " ---" ++ [10%N; 10%N] ++ page_text)
            (enumerate 1 (map (default []) pages)) [])
  end.

Definition _extract_docx_text (f : file) : result str :=
  match docx_paragraphs f with
  | Raise e => Raise e
  | Ok paragraphs =>
      Ok (Py.join [10%N; 10%N]
            (filter (fun paragraph => Py.strip paragraph <> []) paragraphs))
  end.

Definition _extract_text (f : file) : result str :=
  if bool_decide (file_extension f = Py.lit ".docx") then _extract_docx_text f
  else if bool_decide (file_extension f = Py.lit ".txt")
          || bool_decide (file_extension f = Py.lit ".md") then _extract_plain_text f
  else if bool_decide (file_extension f = Py.lit ".pdf") then _extract_pdf_text f
  else Raise (Py.lit "Unsupported file format: " ++ file_extension f).

Section DocumentService.

(** The values of the metadata a user attaches to a document. *)
Variable Any : Type.

Record DocumentInfo := {
  id : str;
  filename : str;
  collection : str;
  status : DocumentStatus;
  file_size : Z;
  content_type : str;
  chunks_count : Z;
  created_at : Z;
  processed_at : option Z;
  metadata : option (gmap str Any)
}.

(** [doc_info.status = status] *)
Definition set_status (doc_info : DocumentInfo) (status' : DocumentStatus) : DocumentInfo :=
  {| id := id doc_info;
     filename := filename doc_info;
     collection := collection doc_info;
     status := status';
     file_size := file_size doc_info;
     content_type := content_type doc_info;
     chunks_count := chunks_count doc_info;
     created_at := created_at doc_info;
     processed_at := processed_at doc_info;
     metadata := metadata doc_info |}.

(** The three assignments that end a successful processing. *)
Definition set_completed (doc_info : DocumentInfo) (count now : Z) : DocumentInfo :=
  {| id := id doc_info;
     filename := filename doc_info;
     collection := collection doc_info;
     status := COMPLETED;
     file_size := file_size doc_info;
     content_type := content_type doc_info;
     chunks_count := count;
     created_at := created_at doc_info;
     processed_at := Some now;
     metadata := metadata doc_info |}.

(** The two dictionaries of the service. *)
Record state := {
  documents : gmap str DocumentInfo;
  document_chunks : gmap str (list document_service.chunk)
}.

Definition get_document (st : state) (document_id : str) : option DocumentInfo :=
  documents st !! document_id.

(** The loop over the pages of a PDF; [None] when a chunking loop is still
    running after [fuel] iterations. *)
Fixpoint chunk_pages (settings : config.Settings) (fuel : nat) (document_id file_name : str)
    (pages : list (Z * str)) (chunks : list document_service.chunk)
    : option (list document_service.chunk) :=
  match pages with
  | [] => Some chunks
  | (page_num, page_text) :: pages' =>
      let clean := document_service._clean_text page_text in
      match document_service._split_into_chunks clean document_id (Some file_name)
              (Some page_num) (config.chunk_size settings) (config.chunk_overlap settings)
              fuel with
      | None => None
      | Some page_chunks =>
          chunk_pages settings fuel document_id file_name pages' (chunks ++ page_chunks)
      end
  end.

(** The body of the [try] of [_process_document] after the status is set:
    the chunks, or the exception raised by the extraction. *)
Definition extract_chunks (settings : config.Settings) (fuel : nat) (f : file)
    (document_id file_name : str) : option (result (list document_service.chunk)) :=
  if bool_decide (file_extension f = Py.lit ".pdf") then
    match _extract_pdf_pages f with
    | Raise e => Some (Raise e)
    | Ok pages =>
        match chunk_pages settings fuel document_id file_name pages [] with
        | None => None
        | Some chunks => Some (Ok chunks)
        end
    end
  else
    match _extract_text f with
    | Raise e => Some (Raise e)
    | Ok text_content =>
        let clean := document_service._clean_text text_content in
        match document_service._split_into_chunks clean document_id (Some file_name) None
                (config.chunk_size settings) (config.chunk_overlap settings) fuel with
        | None => None
        | Some chunks => Some (Ok chunks)
        end
    end.

(** [_process_document]: the value it returns and the dictionaries it
    leaves; [now] is the reading of the clock at the end. *)
Definition _process_document (settings : config.Settings) (fuel : nat) (now : Z) (f : file)
    (st : state) (document_id : str)
    : option (option (list document_service.chunk) * state) :=
  match documents st !! document_id with
  | None => Some (None, st)
  | Some doc_info =>
      let doc_info := set_status doc_info PROCESSING in
      match extract_chunks settings fuel f document_id (filename doc_info) with
      | None => None
      | Some (Ok chunks) =>
          Some (Some chunks,
                {| documents :=
                     <[document_id := set_completed doc_info (Py.len chunks) now]>
                       (documents st);
                   document_chunks := <[document_id := chunks]> (document_chunks st) |})
      | Some (Raise _) =>
          Some (None,
                {| documents := <[document_id := set_status doc_info FAILED]> (documents st);
                   document_chunks := delete document_id (document_chunks st) |})
      end
  end.

Definition delete_document (d : disk) (st : state) (document_id : str) : bool * state :=
  match documents st !! document_id with
  | None => (false, st)
  | Some doc_info =>
      match exists_ d with
      | Raise _ => (false, st)
      | Ok present =>
          match (if present then unlink d else Ok tt) with
          | Raise _ => (false, st)
          | Ok _ =>
              (true,
               {| documents := delete document_id (documents st);
                  document_chunks := delete document_id (document_chunks st) |})
          end
      end
  end.

End DocumentService.

Arguments id {Any} _.
Arguments filename {Any} _.
Arguments collection {Any} _.
Arguments status {Any} _.
Arguments file_size {Any} _.
Arguments content_type {Any} _.
Arguments chunks_count {Any} _.
Arguments created_at {Any} _.
Arguments processed_at {Any} _.
Arguments metadata {Any} _.
Arguments set_status {Any} _ _.
Arguments set_completed {Any} _ _ _.
Arguments documents {Any} _.
Arguments document_chunks {Any} _.
Arguments get_document {Any} _ _.
Arguments _process_document {Any} _ _ _ _ _ _.
Arguments delete_document {Any} _ _ _.

End DocumentService.

(** ** [rag_service.py]: the indexing of an uploaded document *)

Module RAGService.
Section RAGService.

Variable Any : Type.

(** The document service as the successive calls of [get_document] find
    it (the processing task changes it while this one sleeps), and the two
    methods of the vector service, which catch their own exceptions. *)
Record services := {
  store : nat -> DocumentService.state Any;
  create_collection : str -> bool;
  add_document_chunks : str -> list document_service.chunk -> bool
}.

Inductive call :=
| GetDocument (document_id : str)
| Sleep (seconds : Z)
| CreateCollection (name : str)
| AddDocumentChunks (name : str) (chunks : list document_service.chunk).

(** [doc_info.status.value in ["uploading", "processing"]] *)
Definition in_progress (status : DocumentService.DocumentStatus) : bool :=
  bool_decide (DocumentService.value status = Py.lit "uploading")
  || bool_decide (DocumentService.value status = Py.lit "processing").

(** The waiting loop, with [retries = max_retries - retry_count]; [reads]
    counts the calls of [get_document] made so far. Reading the status of
    [None] raises. *)
Fixpoint wait (sv : services) (document_id : str) (retries reads : nat)
    (doc_info : option (DocumentService.DocumentInfo Any)) (trace : list call)
    : result (DocumentService.DocumentInfo Any) * nat * list call :=
  match doc_info with
  | None => (Raise (Py.lit "'NoneType' object has no attribute 'status'"), reads, trace)
  | Some info =>
      if in_progress (DocumentService.status info) then
        match retries with
        | O => (Ok info, reads, trace)
        | S retries' =>
            wait sv document_id retries' (S reads)
              (DocumentService.get_document (store sv reads) document_id)
              (trace ++ [Sleep 1; GetDocument document_id])
        end
      else (Ok info, reads, trace)
  end.

Definition _get_document_chunks (sv : services) (reads : nat) (document_id : str)
    : list document_service.chunk :=
  match DocumentService.get_document (store sv reads) document_id with
  | None => []
  | Some _ => []
  end.

(** The calls that reach the vector service, and the time spent asleep. *)
Definition vector_call (c : call) : Prop :=
  match c with
  | CreateCollection _ | AddDocumentChunks _ _ => True
  | _ => False
  end.

Definition seconds_slept (trace : list call) : Z :=
  foldr (fun c total => match c with Sleep seconds => seconds + total | _ => total end)
    0 trace.

(** [process_document_for_rag]: what it returns and the calls it makes. *)
Definition process_document_for_rag (sv : services) (document_id collection : str)
    : bool * list call :=
  match DocumentService.get_document (store sv 0) document_id with
  | None => (false, [GetDocument document_id])
  | Some info =>
      match wait sv document_id 30 1 (Some info) [GetDocument document_id] with
      | (Raise _, _, trace) => (false, trace)
      | (Ok info, reads, trace) =>
          if negb (bool_decide (DocumentService.value (DocumentService.status info)
                                = Py.lit "completed"))
          then (false, trace)
          else
            let chunks := _get_document_chunks sv reads document_id in
            let trace := trace ++ [GetDocument document_id] in
            match chunks with
            | [] => (false, trace)
            | _ :: _ =>
                let _ := create_collection sv collection in
                let success := add_document_chunks sv collection chunks in
                (success,
                 trace ++ [CreateCollection collection; AddDocumentChunks collection chunks])
            end
      end
  end.

End RAGService.

Arguments store {Any} _ _.
Arguments create_collection {Any} _ _.
Arguments add_document_chunks {Any} _ _ _.
Arguments wait {Any}.
Arguments _get_document_chunks {Any}.
Arguments process_document_for_rag {Any}.

End RAGService.

(** ** A stored document, for the concrete runs *)

Module archive.

Definition cats_info : DocumentService.DocumentInfo unit :=
  {| DocumentService.id := Py.lit "d1";
     DocumentService.filename := Py.lit "cats.pdf";
     DocumentService.collection := Py.lit "default";
     DocumentService.status := DocumentService.UPLOADING;
     DocumentService.file_size := 2048;
     DocumentService.content_type := Py.lit "application/pdf";
     DocumentService.chunks_count := 0;
     DocumentService.created_at := 1700000000;
     DocumentService.processed_at := None;
     DocumentService.metadata := Some ∅ |}.

Definition cats_store : DocumentService.state unit :=
  {| DocumentService.documents := {[ Py.lit "d1" := cats_info ]};
     DocumentService.document_chunks := ∅ |}.

(** A PDF of three pages, the second without text. *)
Definition cats_pdf : DocumentService.file :=
  {| DocumentService.file_extension := Py.lit ".pdf";
     DocumentService.pdf_pages :=
       Ok [Some (Py.lit "Cats purr."); None; Some (Py.lit "  Dogs bark.  ")];
     DocumentService.docx_paragraphs := Raise (Py.lit "File is not a zip file");
     DocumentService._extract_plain_text := Raise (Py.lit "invalid start byte") |}.


End archive.

(** * Properties *)

(** ** Python strings *)

Section py_facts.

Import Py.

Lemma len_nonneg (s : str) : 0 <= len s.
Proof. unfold len. lia. Qed.

Lemma rfind_scan_range (s : str) (c : N) (lo hi : Z) :
  forall i0 best,
    best = -1 \/ lo <= best < hi ->
    rfind_scan s c lo hi i0 best = -1 \/ lo <= rfind_scan s c lo hi i0 best < hi.
Proof.
  induction s as [|x s IH]; intros i0 best Hbest; simpl; [exact Hbest|].
  apply IH.
  destruct (Z.leb_spec lo i0), (Z.ltb_spec i0 hi), (N.eqb_spec x c); simpl; auto.
Qed.

Lemma rfind_range (s : str) (c : N) (a b : Z) :
  rfind s c a b = -1 \/ window_lo (len s) a <= rfind s c a b < window_hi (len s) b.
Proof. unfold rfind. apply rfind_scan_range. now left. Qed.

Lemma slice_len_le (s : str) (a b : Z) :
  len (slice s a b) <= Z.max 0 (adjust (len s) b - adjust (len s) a).
Proof. unfold slice, len. rewrite length_take. lia. Qed.

Lemma slice_all (s : str) : slice s 0 (len s) = s.
Proof.
  unfold slice, adjust. pose proof (len_nonneg s) as Hn.
  destruct (Z.ltb_spec (len s) 0); [lia|]. simpl.
  rewrite Z.min_id, Z.min_l, Z.sub_0_r by lia. simpl.
  unfold len. rewrite Nat2Z.id. apply firstn_all.
Qed.

Lemma lstrip_length (s : str) : (length (lstrip s) <= length s)%nat.
Proof. induction s as [|c s IH]; simpl; [lia|]. destruct (isspace c); simpl; lia. Qed.

Lemma rstrip_length (s : str) : (length (rstrip s) <= length s)%nat.
Proof.
  induction s as [|c s IH]; simpl; [lia|].
  destruct (rstrip s); [destruct (isspace c)|]; simpl in *; lia.
Qed.

Lemma strip_len_le (s : str) : len (strip s) <= len s.
Proof.
  unfold strip, len. pose proof (rstrip_length (lstrip s)). pose proof (lstrip_length s). lia.
Qed.






End py_facts.

(** ** The chunker *)

Section chunker_facts.

Import Py.
Import document_service.

Variable text : str.
Variable doc_id : str.
Variable file_name : option str.
Variable page_no : option Z.
Variable chunk_size : Z.
Variable chunk_overlap : Z.

Local Abbreviation chunk_end := (chunk_end text chunk_size).
Local Abbreviation next_start := (next_start text chunk_size chunk_overlap).
Local Abbreviation loop_body :=
  (loop_body text doc_id file_name page_no chunk_size chunk_overlap).
Local Abbreviation loop := (loop text doc_id file_name page_no chunk_size chunk_overlap).

(** The three outcomes of the boundary search: the candidate end is kept;
    or a terminator found at [se] inside the window moves the end to just
    past it; or nothing is found and the cursor is below [-1], so that the
    "not found" value of [rfind] itself passes the test [sentence_end > start]. *)
Lemma chunk_end_cases (s : Z) :
  chunk_end s = s + chunk_size
  \/ (s + chunk_size < len text /\ s < -1 /\ chunk_end s = 0)
  \/ (s + chunk_size < len text /\
      exists se, chunk_end s = se + 1 /\ s < se /\
        window_lo (len text) (s + chunk_size - 100) <= se
        < window_hi (len text) (s + chunk_size)).
Proof.
  unfold document_service.chunk_end.
  destruct (Z.ltb_spec (s + chunk_size) (len text)) as [Hlt|]; [|now left].
  set (p := rfind text 46 _ _). set (e := rfind text 33 _ _). set (q := rfind text 63 _ _).
  destruct (Z.ltb_spec s (Z.max (Z.max p e) q)) as [Hs|]; [|now left].
  right.
  pose proof (rfind_range text 46 (s + chunk_size - 100) (s + chunk_size)) as Hp.
  pose proof (rfind_range text 33 (s + chunk_size - 100) (s + chunk_size)) as He.
  pose proof (rfind_range text 63 (s + chunk_size - 100) (s + chunk_size)) as Hq.
  fold p in Hp. fold e in He. fold q in Hq.
  destruct (Z.eq_dec (Z.max (Z.max p e) q) (-1)) as [Hm|Hm].
  - left. rewrite Hm in *. repeat split; lia.
  - right. split; [exact Hlt|]. exists (Z.max (Z.max p e) q). repeat split; lia.
Qed.

(** The content of a chunk is never longer than a non-negative chunk size,
    whatever the cursor. *)
Lemma chunk_text_len_le (s : Z) :
  0 <= chunk_size -> len (strip (slice text s (chunk_end s))) <= chunk_size.
Proof.
  intros HS.
  pose proof (strip_len_le (slice text s (chunk_end s))) as H1.
  pose proof (slice_len_le text s (chunk_end s)) as H2.
  pose proof (len_nonneg text) as HL.
  enough (adjust (len text) (chunk_end s) - adjust (len text) s <= chunk_size) by lia.
  clear H1 H2.
  destruct (chunk_end_cases s) as [->|[(Hlt & Hs & ->)|(Hlt & se & -> & Hs & Hw)]];
    unfold adjust, window_lo, window_hi in *;
    repeat match goal with
           | |- context [Z.ltb ?a ?b] => destruct (Z.ltb_spec a b)
           | H : context [Z.ltb ?a ?b] |- _ => destruct (Z.ltb_spec a b)
           end; lia.
Qed.

(** With an overlap that leaves the whole search window ahead of the next
    cursor, every iteration moves the cursor forward. *)
Lemma next_start_advances (s : Z) :
  0 <= chunk_overlap -> chunk_overlap + 100 <= chunk_size -> 0 <= s ->
  s < next_start s.
Proof.
  intros HO HS Hs. unfold document_service.next_start.
  pose proof (len_nonneg text) as HL.
  destruct (chunk_end_cases s) as [->|[(Hlt & Hs' & ->)|(Hlt & se & -> & Hs' & Hw)]].
  - destruct (Z.ltb_spec (s + chunk_size) (len text)); lia.
  - lia.
  - unfold window_lo, window_hi in Hw.
    repeat match goal with
           | |- context [Z.ltb ?a ?b] => destruct (Z.ltb_spec a b)
           | H : context [Z.ltb ?a ?b] |- _ => destruct (Z.ltb_spec a b)
           end; lia.
Qed.

Lemma loop_body_start (st : loop_state) : start (loop_body st) = next_start (start st).
Proof. unfold document_service.loop_body. now destruct (strip _). Qed.

Lemma loop_terminates :
  0 <= chunk_overlap -> chunk_overlap + 100 <= chunk_size ->
  forall fuel st,
    0 <= start st -> len text - start st <= Z.of_nat fuel ->
    exists cs, loop fuel st = Some cs.
Proof.
  intros HO HS. induction fuel as [|fuel IH]; intros st Hs Hfuel; simpl.
  - destruct (Z.ltb_spec (start st) (len text)); [lia|eauto].
  - destruct (Z.ltb_spec (start st) (len text)); [|eauto].
    pose proof (next_start_advances (start st) HO HS Hs) as Hadv.
    apply IH; rewrite loop_body_start; lia.
Qed.

(** A property of the loop state that every iteration keeps holds of the
    state in which the loop stops. *)
Lemma loop_invariant (I : loop_state -> Prop) :
  (forall st, start st < len text -> I st -> I (loop_body st)) ->
  forall fuel st cs, I st -> loop fuel st = Some cs ->
    exists st', I st' /\ chunks st' = cs.
Proof.
  intros Hstep. induction fuel as [|fuel IH]; intros st cs HI; simpl;
    destruct (Z.ltb_spec (start st) (len text)) as [Hlt|Hge]; intros Hrun.
  - discriminate.
  - injection Hrun as <-. eauto.
  - eapply IH; [|exact Hrun]. now apply Hstep.
  - injection Hrun as <-. eauto.
Qed.


Lemma loop_body_bounded (st : loop_state) :
  0 <= chunk_size ->
  Forall (fun c => len (content c) <= chunk_size /\ length c = len (content c)) (chunks st) ->
  Forall (fun c => len (content c) <= chunk_size /\ length c = len (content c))
    (chunks (loop_body st)).
Proof.
  intros HS Hall. unfold document_service.loop_body.
  pose proof (chunk_text_len_le (start st) HS) as Hle.
  destruct (strip (slice text (start st) (chunk_end (start st)))) as [|c t]; [exact Hall|].
  simpl. apply Forall_app. split; [exact Hall|].
  constructor; [|constructor]. simpl. split; [exact Hle|reflexivity].
Qed.




(** C8, as the code has it: a text of exactly [chunk_size] characters is
    one slice; it yields exactly one chunk, numbered 0, whose content is the
    trimmed text, when the trimmed text is non-empty, and no chunk when the
    text is all whitespace (or empty). Sentence terminators play no part. *)
Theorem split_exact_size (fuel : nat) :
  len text = chunk_size ->
  (strip text <> [] ->
   _split_into_chunks text doc_id file_name page_no chunk_size chunk_overlap (S fuel)
   = Some [make_chunk doc_id file_name page_no 0 0 chunk_size (strip text)]) /\
  (strip text = [] ->
   _split_into_chunks text doc_id file_name page_no chunk_size chunk_overlap (S fuel)
   = Some []).
Proof.
  intros Hlen. unfold _split_into_chunks.
  assert (Hend : chunk_end 0 = chunk_size).
  { unfold document_service.chunk_end. destruct (Z.ltb_spec (0 + chunk_size) (len text)); lia. }
  assert (Hnext : next_start 0 = chunk_size).
  { unfold document_service.next_start. rewrite Hend.
    destruct (Z.ltb_spec chunk_size (len text)); lia. }
  assert (Hslice : slice text 0 (chunk_end 0) = text).
  { rewrite Hend, <- Hlen. apply slice_all. }
  assert (Hstop : forall st, start st = chunk_size -> loop fuel st = Some (chunks st)).
  { intros st Hst. destruct fuel; simpl; rewrite Hst;
      destruct (Z.ltb_spec chunk_size (len text)); (lia || reflexivity). }
  split; intros Hstrip; simpl.
  - destruct (Z.ltb_spec 0 (len text)) as [Hpos|Hzero].
    + rewrite Hstop; unfold document_service.loop_body; simpl; rewrite Hslice;
        destruct (strip text) eqn:E; try congruence; simpl; rewrite ?Hend; auto.
    + exfalso. apply Hstrip. destruct text; [reflexivity|]. unfold len in Hzero. simpl in Hzero. lia.
  - destruct (Z.ltb_spec 0 (len text)) as [Hpos|Hzero]; [|reflexivity].
    rewrite Hstop; unfold document_service.loop_body; simpl; rewrite Hslice, Hstrip; auto.
Qed.

(** C10, as the code has it: for a non-negative chunk size (and any
    overlap), the boundary adjustment never puts the end of a chunk past
    [start + chunk_size] for a cursor inside the text; the trimmed slice
    taken at any cursor is at most [chunk_size] characters long; and so the
    content of every chunk returned is at most [chunk_size] characters long,
    which is also the ["length"] recorded with it. *)
Theorem split_chunk_length_bounded :
  0 <= chunk_size ->
  (forall s, 0 <= s -> chunk_end s <= s + chunk_size) /\
  (forall s, len (strip (slice text s (chunk_end s))) <= chunk_size) /\
  (forall fuel cs,
     _split_into_chunks text doc_id file_name page_no chunk_size chunk_overlap fuel = Some cs ->
     Forall (fun c => len (content c) <= chunk_size /\ length c = len (content c)) cs).
Proof.
  intros HS. split; [|split].
  - intros s Hs. pose proof (len_nonneg text) as HL.
    destruct (chunk_end_cases s) as [->|[(Hlt & Hs' & ->)|(Hlt & se & -> & Hs' & Hw)]];
      [lia|lia|].
    unfold window_hi in Hw.
    destruct (Z.ltb_spec (len text) (s + chunk_size)); [lia|].
    destruct (Z.ltb_spec (s + chunk_size) 0); lia.
  - intros s. now apply chunk_text_len_le.
  - intros fuel cs Hrun.
    destruct (loop_invariant _ (fun st _ => loop_body_bounded st HS) fuel
                {| start := 0; next_index := 0; chunks := [] |} cs (Forall_nil_2 _) Hrun)
      as (st' & Hall & <-).
    exact Hall.
Qed.

End chunker_facts.




Lemma split_exact_size_witness :
  Py.len (Py.lit " abc ") = 5 /\
  (Py.strip (Py.lit " abc ") <> [] ->
   document_service._split_into_chunks (Py.lit " abc ") (Py.lit "d1") None None 5 2 1
   = Some [document_service.make_chunk (Py.lit "d1") None None 0 0 5
             (Py.strip (Py.lit " abc "))]) /\
  (Py.strip (Py.lit " abc ") = [] ->
   document_service._split_into_chunks (Py.lit " abc ") (Py.lit "d1") None None 5 2 1
   = Some []).
Proof.
  split; [reflexivity|].
  apply (split_exact_size (Py.lit " abc ") (Py.lit "d1") None None 5 2 0). reflexivity.
Defined.

(** C8 fails as stated: a text of exactly [chunk_size] characters without
    sentence terminators that is all whitespace yields no chunk at all. *)
Lemma split_exact_size_blank :
  Py.len (Py.lit "   ") = 3 /\
  (46%N ∉ Py.lit "   ") /\ (33%N ∉ Py.lit "   ") /\ (63%N ∉ Py.lit "   ") /\
  document_service._split_into_chunks (Py.lit "   ") (Py.lit "d1") None None 3 0 1 = Some [].
Proof.
  split; [reflexivity|].
  repeat (split; [intros H; repeat (apply elem_of_cons in H as [H|H]; [discriminate|]);
                  now apply elem_of_nil in H|]).
  reflexivity.
Qed.

Lemma split_chunk_length_bounded_witness :
  exists cs,
    0 <= 10 /\
    document_service._split_into_chunks (Py.lit "Hello world. This is a test!")
      (Py.lit "d1") None None 10 0 4 = Some cs /\
    (1 < List.length cs)%nat /\
    (forall s, 0 <= s ->
       document_service.chunk_end (Py.lit "Hello world. This is a test!") 10 s <= s + 10) /\
    Forall (fun c => Py.len (document_service.content c) <= 10 /\
                     document_service.length c = Py.len (document_service.content c)) cs.
Proof.
  destruct (split_chunk_length_bounded (Py.lit "Hello world. This is a test!")
              (Py.lit "d1") None None 10 0) as (Hend & _ & Hall); [lia|].
  eexists. split; [lia|]. split; [vm_compute; reflexivity|]. split; [vm_compute; lia|].
  split; [exact Hend|]. apply (Hall 4%nat). vm_compute; reflexivity.
Defined.

(** C10 fails as stated: a negative chunk size is taken as a slice bound
    counted from the end of the text, so with chunk size -1 the text
    ["abc"] yields the chunk ["ab"], which is longer than -1. *)
Lemma split_negative_chunk_size :
  exists c,
    document_service._split_into_chunks (Py.lit "abc") (Py.lit "d1") None None (-1) (-4) 1
    = Some [c] /\
    document_service.content c = Py.lit "ab" /\
    ~ (Py.len (document_service.content c) <= -1).
Proof.
  eexists. split; [vm_compute; reflexivity|]. split; [reflexivity|].
  intros H. vm_compute in H. now apply H.
Qed.

(** ** The text normalizer *)

Section normalizer_facts.

Import Py.
Import document_service.

Lemma islinebreak_isspace (c : N) : islinebreak c = true -> isspace c = true.
Proof.
  unfold islinebreak, isspace.
  rewrite !orb_true_iff, !andb_true_iff, !N.leb_le, !N.eqb_eq. lia.
Qed.

Lemma word_char_no_break (c : N) : word_char c -> islinebreak c = false.
Proof.
  intros [Hsp _]. destruct (islinebreak c) eqn:Hb; [|reflexivity].
  apply islinebreak_isspace in Hb. congruence.
Qed.

Lemma kept_nonspace_word_char (c : N) : kept_char c -> isspace c = false -> word_char c.
Proof.
  intros Hk Hsp. split; [exact Hsp|].
  destruct Hk as [->|[->|Hk]]; [discriminate Hsp|discriminate Hsp|exact Hk].
Qed.

Lemma scrub_kept (c : N) : kept_char (scrub c).
Proof.
  unfold scrub, kept_char.
  destruct ((c =? 10) || (c =? 9) || (32 <=? c))%N eqn:Ht; [|lia].
  rewrite !orb_true_iff, !N.eqb_eq, N.leb_le in Ht. lia.
Qed.

Lemma scrub_fixed (c : N) : kept_char c -> scrub c = c.
Proof.
  unfold scrub, kept_char. intros Hk.
  destruct ((c =? 10) || (c =? 9) || (32 <=? c))%N eqn:Ht; [reflexivity|].
  rewrite !orb_false_iff, !N.eqb_neq, N.leb_gt in Ht. lia.
Qed.

Lemma map_fixed (f : N -> N) (s : str) : Forall (fun c => f c = c) s -> map f s = s.
Proof. induction 1 as [|c s Hc _ IH]; simpl; [reflexivity|]. now rewrite Hc, IH. Qed.

Lemma join_Forall (P : N -> Prop) (sep : str) (parts : list str) :
  Forall P sep -> Forall (Forall P) parts -> Forall P (join sep parts).
Proof.
  intros Hsep. induction 1 as [|p ps Hp Hps IH]; simpl; [constructor|].
  destruct ps as [|q ps]; [exact Hp|].
  apply Forall_app. split; [exact Hp|]. apply Forall_app. now split.
Qed.

(** *** [split] *)

Lemma split_from_end (cur : str) : cur <> [] -> split_from cur [] = [rev cur].
Proof. destruct cur; [congruence|reflexivity]. Qed.

Lemma split_from_space (cur : str) (c : N) (s : str) :
  isspace c = true -> cur <> [] -> split_from cur (c :: s) = rev cur :: split_from [] s.
Proof. intros Hc Hcur. simpl. rewrite Hc. destruct cur; [congruence|reflexivity]. Qed.

Lemma split_from_app (w : str) :
  Forall (fun c => isspace c = false) w ->
  forall cur s, split_from cur (w ++ s) = split_from (rev w ++ cur) s.
Proof.
  induction 1 as [|c w Hc _ IH]; intros cur s; simpl; [reflexivity|].
  rewrite Hc, IH, <- app_assoc. reflexivity.
Qed.

Lemma rev_nonempty (s : str) : s <> [] -> rev s <> [].
Proof.
  intros Hs Hr. apply Hs. rewrite <- (rev_involutive s), Hr. reflexivity.
Qed.

Lemma word_nonspace (w : str) : word w -> Forall (fun c => isspace c = false) w.
Proof. intros [_ Hw]. eapply Forall_impl; [exact Hw|]. now intros c [Hc _]. Qed.

Lemma split_join (ws : list str) : Forall word ws -> split (join [32%N] ws) = ws.
Proof.
  unfold split. induction 1 as [|w ws Hw Hws IH]; [reflexivity|].
  pose proof (word_nonspace w Hw) as Hns. destruct Hw as [Hne _].
  destruct ws as [|w2 ws].
  - simpl. rewrite <- (app_nil_r w) at 1. rewrite split_from_app by exact Hns.
    rewrite app_nil_r, split_from_end by now apply rev_nonempty.
    now rewrite rev_involutive.
  - change (join [32%N] (w :: w2 :: ws)) with (w ++ 32%N :: join [32%N] (w2 :: ws)).
    rewrite split_from_app by exact Hns.
    rewrite app_nil_r, split_from_space; [|reflexivity|now apply rev_nonempty].
    now rewrite rev_involutive, IH.
Qed.

Lemma split_from_words (s : str) :
  Forall kept_char s ->
  forall cur, Forall word_char cur -> Forall word (split_from cur s).
Proof.
  induction 1 as [|c s Hc _ IH]; intros cur Hcur; simpl.
  - destruct cur as [|d cur]; [constructor|].
    constructor; [|constructor]. split; [now apply rev_nonempty|].
    now apply Forall_rev.
  - destruct (isspace c) eqn:Hsp.
    + destruct cur as [|d cur]; [now apply IH|].
      constructor; [|apply IH; constructor].
      split; [now apply rev_nonempty|]. now apply Forall_rev.
    + apply IH. constructor; [|exact Hcur]. now apply kept_nonspace_word_char.
Qed.

(** *** [splitlines] *)

Lemma splitlines_from_end (cur : str) : cur <> [] -> splitlines_from cur [] = [rev cur].
Proof. destruct cur; [congruence|reflexivity]. Qed.

Lemma splitlines_from_newline (cur s : str) :
  splitlines_from cur (10%N :: s) = rev cur :: splitlines_from [] s.
Proof. simpl. now destruct s. Qed.

Lemma splitlines_from_app (l : str) :
  Forall (fun c => islinebreak c = false) l ->
  forall cur s, splitlines_from cur (l ++ s) = splitlines_from (rev l ++ cur) s.
Proof.
  induction 1 as [|c l Hc _ IH]; intros cur s; simpl; [reflexivity|].
  rewrite Hc, IH, <- app_assoc. reflexivity.
Qed.

Lemma splitlines_join (ls : list str) :
  Forall (fun l => l <> [] /\ Forall (fun c => islinebreak c = false) l) ls ->
  splitlines (join [10%N] ls) = ls.
Proof.
  unfold splitlines. induction 1 as [|l ls [Hne Hnb] Hls IH]; [reflexivity|].
  destruct ls as [|l2 ls].
  - simpl. rewrite <- (app_nil_r l) at 1. rewrite splitlines_from_app by exact Hnb.
    rewrite app_nil_r, splitlines_from_end by now apply rev_nonempty.
    now rewrite rev_involutive.
  - change (join [10%N] (l :: l2 :: ls)) with (l ++ 10%N :: join [10%N] (l2 :: ls)).
    rewrite splitlines_from_app by exact Hnb.
    rewrite app_nil_r, splitlines_from_newline.
    now rewrite rev_involutive, IH.
Qed.

Lemma splitlines_from_Forall (P : N -> Prop) (s : str) :
  Forall P s -> forall cur, Forall P cur -> Forall (Forall P) (splitlines_from cur s).
Proof.
  induction s as [s IHs] using (induction_ltof1 _ (@List.length N)).
  intros Hs cur Hcur. destruct s as [|c s]; simpl.
  - destruct cur; [constructor|]. constructor; [|constructor]. now apply Forall_rev.
  - apply Forall_cons in Hs as [Hc Hs].
    destruct (islinebreak c).
    + destruct s as [|c' s'].
      * constructor; [now apply Forall_rev|]. simpl. constructor.
      * apply Forall_cons in Hs as [Hc' Hs'].
        destruct ((c =? 13)%N && (c' =? 10)%N);
          (constructor; [now apply Forall_rev|]);
          apply IHs; unfold ltof; simpl; auto; lia.
    + apply IHs; [unfold ltof; simpl; lia|exact Hs|now constructor].
Qed.

(** *** The two passes *)

Local Abbreviation normalize_line := (fun line : str => join [32%N] (split line)).

Local Abbreviation nonempty_lines := (filter (fun line : str => line <> [])).

Lemma clean_text_unfold (text : str) :
  _clean_text text =
  join [10%N] (nonempty_lines
    (map normalize_line (splitlines (map scrub (replace 0 32 text))))).
Proof. destruct text; reflexivity. Qed.

(** The first pass leaves non-empty lines of words only. *)
Lemma first_pass_lines (lines : list str) :
  Forall (Forall kept_char) lines ->
  Forall normal_line (nonempty_lines (map normalize_line lines)).
Proof.
  induction 1 as [|x lines Hx _ IH]; simpl; [constructor|].
  rewrite filter_cons. destruct (decide _) as [Hne|_]; [|exact IH].
  constructor; [|exact IH]. split; [exact Hne|].
  exists (split x). split; [reflexivity|].
  apply split_from_words; [exact Hx|constructor].
Qed.

Lemma normal_line_chars (l : str) :
  normal_line l -> Forall (fun c => c = 32%N \/ word_char c) l.
Proof.
  intros (_ & ws & -> & Hws). apply join_Forall; [repeat constructor|].
  eapply Forall_impl; [exact Hws|]. intros w [_ Hw].
  eapply Forall_impl; [exact Hw|]. auto.
Qed.

Lemma normal_line_fixed (l : str) : normal_line l -> normalize_line l = l.
Proof. intros (_ & ws & -> & Hws). now rewrite split_join. Qed.

(** Text of that shape is a fixed point of the normalizer. *)
Lemma clean_text_fixed (ls : list str) :
  Forall normal_line ls -> _clean_text (join [10%N] ls) = join [10%N] ls.
Proof.
  intros Hls. rewrite clean_text_unfold.
  assert (Hchars : Forall (fun c => c = 10%N \/ c = 32%N \/ word_char c) (join [10%N] ls)).
  { apply join_Forall; [repeat constructor|].
    eapply Forall_impl; [exact Hls|]. intros l Hl.
    eapply Forall_impl; [exact (normal_line_chars l Hl)|]. tauto. }
  unfold replace. rewrite (map_fixed _ (join [10%N] ls)).
  2:{ eapply Forall_impl; [exact Hchars|]. intros c Hc.
      destruct (N.eqb_spec c 0) as [->|]; [|reflexivity].
      destruct Hc as [Hc|[Hc|[_ Hc]]]; lia. }
  rewrite (map_fixed scrub).
  2:{ eapply Forall_impl; [exact Hchars|]. intros c Hc. apply scrub_fixed.
      unfold kept_char. destruct Hc as [Hc|[Hc|[_ Hc]]]; lia. }
  rewrite splitlines_join.
  2:{ eapply Forall_impl; [exact Hls|]. intros l Hl. split; [apply Hl|].
      eapply Forall_impl; [exact (normal_line_chars l Hl)|].
      intros c [->|Hc]; [reflexivity|now apply word_char_no_break]. }
  f_equal. clear Hchars. induction Hls as [|l ls Hl _ IH]; [reflexivity|].
  simpl. rewrite (normal_line_fixed l Hl), filter_cons_True by apply Hl.
  now rewrite IH.
Qed.

(** C9: the normalizer is idempotent. *)
Theorem clean_text_idempotent (t : str) : _clean_text (_clean_text t) = _clean_text t.
Proof.
  rewrite (clean_text_unfold t). apply clean_text_fixed, first_pass_lines.
  apply splitlines_from_Forall; [|constructor].
  apply List.Forall_map, Forall_true. intros c. apply scrub_kept.
Qed.

End normalizer_facts.

(** ** Retrieval *)

Section retrieval_facts.

Context `{FloatOps}.
Variable env : external.t.

Import effects.

Lemma collect_chunks_pure (results : external.query_result)
    (rows : list (str * Metadata.t * float)) :
  forall i chunks w,
    vector_service.collect_chunks results i rows chunks w
    = (fst (vector_service.collect_chunks results i rows chunks start_of_request), w).
Proof.
  induction rows as [|[[doc metadata] distance] rows IH]; intros i chunks w; [reflexivity|].
  cbn [vector_service.collect_chunks]. unfold bind, getitem.
  destruct (external.ids results !! 0%nat) as [ids0|]; [|reflexivity].
  unfold ret at 1 3. cbv beta iota.
  destruct (ids0 !! i) as [id|]; [|reflexivity].
  unfold ret at 1 2. cbv beta iota. apply IH.
Qed.

(** A search never raises, takes no clock reading and yields no event; it
    only adds its own calls to those made so far. *)
Lemma similarity_search_run (query collection_name : str) (k : Z) (w : world) :
  vector_service.similarity_search env query collection_name k w
  = (Ok (vector_service.retrieved env query collection_name k),
     {| ticks := ticks w;
        calls := calls w ++ vector_service.retrieval_calls env query collection_name k;
        emitted := emitted w |}).
Proof.
  unfold vector_service.retrieved, vector_service.retrieval_calls,
    vector_service.similarity_search, try_except, bind, record_call, of_result, getitem,
    raise, ret.
  cbn [ticks calls emitted start_of_request app fst snd].
  destruct (external.get_collection env collection_name) as [collection|e]; [|reflexivity].
  destruct (external.encode env [query]) as [emb|e]; [|now rewrite <- app_assoc].
  cbn [ticks calls emitted app fst snd].
  destruct (external.query collection emb k) as [results|e]; [|now rewrite <- !app_assoc].
  destruct (external.documents results) as [[|[|d ds] dss]|];
    try (now rewrite <- !app_assoc).
  destruct (external.metadatas results !! 0%nat) as [metadatas0|];
    [|now rewrite <- !app_assoc].
  destruct (external.distances results !! 0%nat) as [distances0|];
    [|now rewrite <- !app_assoc].
  rewrite collect_chunks_pure.
  rewrite (collect_chunks_pure _ _ _ _ {| ticks := 0; calls := _; emitted := [] |}).
  destruct (fst _); cbn [ticks calls emitted fst snd]; now rewrite <- !app_assoc.
Qed.

Lemma retrieval_calls_no_generator (query collection_name : str) (k : Z) :
  Forall (fun c => ~ generator_call c)
    (vector_service.retrieval_calls env query collection_name k).
Proof.
  unfold vector_service.retrieval_calls, vector_service.similarity_search, try_except, bind,
    record_call, of_result, getitem, raise, ret.
  cbn [ticks calls emitted start_of_request app fst snd].
  destruct (external.get_collection env collection_name) as [collection|e];
    [|repeat constructor; auto].
  destruct (external.encode env [query]) as [emb|e]; [|repeat constructor; auto].
  cbn [ticks calls emitted app fst snd].
  destruct (external.query collection emb k) as [results|e]; [|repeat constructor; auto].
  destruct (external.documents results) as [[|[|d ds] dss]|];
    try (repeat constructor; now auto).
  destruct (external.metadatas results !! 0%nat) as [metadatas0|];
    [|repeat constructor; auto].
  destruct (external.distances results !! 0%nat) as [distances0|];
    [|repeat constructor; auto].
  rewrite collect_chunks_pure.
  destruct (fst _); cbn [ticks calls emitted fst snd]; repeat constructor; auto.
Qed.


End retrieval_facts.

(** ** The orchestrator *)

Section orchestrator_facts.

Context `{FloatOps}.
Variable env : external.t.

Import effects.

(** *** Citations and context *)






(** *** The token loop *)

Lemma add_events_nil (w : world) : add_events w [] = w.
Proof. destruct w. unfold add_events. simpl. now rewrite app_nil_r. Qed.

Lemma stream_tokens_plain (tokens : list str) :
  Forall rag_service.plain tokens ->
  forall w, rag_service.stream_tokens tokens None w = (Ok tt, add_events w (map Token tokens)).
Proof.
  induction 1 as [|token tokens Htoken _ IH]; intros w; simpl.
  - unfold ret. now rewrite add_events_nil.
  - unfold rag_service.plain in Htoken. rewrite Htoken. unfold bind, yield. rewrite IH.
    unfold add_events. simpl. now rewrite <- app_assoc.
Qed.

Lemma stream_tokens_error (before : list str) (token : str) (after : list str)
    (failure : option str) :
  Forall rag_service.plain before -> Py.startswith token (Py.lit "ERROR:") = true ->
  forall w,
    rag_service.stream_tokens (before ++ token :: after) failure w
    = (Ok tt, add_events w (map Token before ++ [Error token])).
Proof.
  intros Hbefore Htoken. induction Hbefore as [|b before Hb _ IH]; intros w; simpl.
  - now rewrite Htoken.
  - unfold rag_service.plain in Hb. rewrite Hb. unfold bind, yield. rewrite IH.
    unfold add_events. simpl. now rewrite <- app_assoc.
Qed.

(** *** One run of [stream_query] and of [query] *)

Lemma stream_query_run (query collection : str) (max_sources : Z) (temperature : float) :
  rag_service.stream_query env query collection max_sources temperature start_of_request
  = match vector_service.retrieved env query collection max_sources with
    | [] =>
        (Ok tt,
         {| ticks := 0;
            calls := vector_service.retrieval_calls env query collection max_sources;
            emitted :=
              [SourcesSearch (Py.lit "Searching for relevant documents...");
               Answer (Py.lit "No relevant documents were found to answer this question.")
                 true] |})
    | chunk :: chunks =>
        let messages :=
          rag_service._create_rag_prompt query
            (rag_service._prepare_context (chunk :: chunks)) in
        let stream := external.generate_streaming_response env messages temperature 300 in
        match
          rag_service.stream_tokens (external.fragments stream) (external.failure stream)
            {| ticks := 0;
               calls := vector_service.retrieval_calls env query collection max_sources
                        ++ [GenerateStreamingResponse messages temperature 300];
               emitted :=
                 [SourcesSearch (Py.lit "Searching for relevant documents...");
                  Sources (rag_service._prepare_sources (chunk :: chunks));
                  GenerationStart (Py.lit "Generating answer...")] |}
        with
        | (Ok _, w) => (Ok tt, add_events w [Done true])
        | (Raise e, w) => (Ok tt, add_events w [Error e])
        end
    end.
Proof.
  unfold rag_service.stream_query, try_except, bind.
  unfold yield at 1. cbv beta iota. rewrite similarity_search_run.
  destruct (vector_service.retrieved env query collection max_sources) as [|chunk chunks].
  - reflexivity.
  - cbv zeta. unfold yield at 1 2, record_call. cbn [ticks calls emitted start_of_request app].
    destruct (rag_service.stream_tokens _ _ _) as [[[]|e] w]; reflexivity.
Qed.

Lemma query_run (query collection : str) (max_sources : Z) (temperature : float) :
  rag_service.query env query collection max_sources temperature start_of_request
  = let elapsed := float_sub (external.time env 1) (external.time env 0) in
    match vector_service.retrieved env query collection max_sources with
    | [] =>
        (Ok (ChatResponse.mk rag_service.no_documents_answer []
               {[ "model" := InfoStr rag_service.default_model;
                  "local" := InfoBool true;
                  "chunks_used" := InfoInt 0 ]}
               elapsed None),
         {| ticks := 2;
            calls := vector_service.retrieval_calls env query collection max_sources;
            emitted := [] |})
    | chunk :: chunks =>
        let messages :=
          rag_service._create_rag_prompt query
            (rag_service._prepare_context (chunk :: chunks)) in
        let failed e :=
          ChatResponse.mk (rag_service.error_answer_prefix ++ e) []
            {[ "error" := InfoStr e ]} elapsed None in
        let w :=
          {| ticks := 2;
             calls := vector_service.retrieval_calls env query collection max_sources
                      ++ [GenerateResponse messages temperature 300];
             emitted := [] |} in
        match external.generate_response env messages temperature 300 with
        | Raise e => (Ok (failed e), w)
        | Ok llm_response =>
            match external.content llm_response with
            | None => (Ok (failed (Py.lit "'content'")), w)
            | Some answer =>
                (Ok (ChatResponse.mk answer
                       (rag_service._prepare_sources (chunk :: chunks))
                       {[ "model" := InfoStr (default rag_service.default_model
                                                (external.model llm_response));
                          "local" := InfoBool true;
                          "chunks_used" := InfoInt (Py.len (chunk :: chunks));
                          "temperature" := InfoFloat temperature ]}
                       elapsed
                       (default ∅ (external.usage llm_response) !! "total_tokens")),
                 w)
            end
        end
    end.
Proof.
  unfold rag_service.query, try_except, bind.
  unfold time_time at 1. cbn [ticks calls emitted start_of_request].
  rewrite similarity_search_run. cbn [ticks calls emitted app].
  destruct (vector_service.retrieved env query collection max_sources) as [|chunk chunks].
  - reflexivity.
  - cbv zeta. unfold record_call, of_result. cbn [ticks calls emitted].
    destruct (external.generate_response env _ temperature 300) as [llm_response|e];
      [|reflexivity].
    destruct (external.content llm_response); reflexivity.
Qed.

(** *** The claims on the two query paths *)

(** C4: when retrieval returns at least one chunk and the generator yields
    fragments none of which is error-tagged, and then ends normally, the
    events of [stream_query] are exactly [sources_search], [sources],
    [generation_start], one [token] event per fragment, carrying that
    fragment, in the order of the generator, and [done]. *)
Theorem stream_query_tokens_in_order (query collection : str) (max_sources : Z)
    (temperature : float) (chunk : DocumentChunk.t) (chunks : list DocumentChunk.t) :
  vector_service.retrieved env query collection max_sources = chunk :: chunks ->
  let stream :=
    external.generate_streaming_response env
      (rag_service._create_rag_prompt query (rag_service._prepare_context (chunk :: chunks)))
      temperature 300 in
  external.failure stream = None ->
  Forall rag_service.plain (external.fragments stream) ->
  rag_service.events_of (rag_service.stream_query env query collection max_sources temperature)
  = [SourcesSearch (Py.lit "Searching for relevant documents...");
     Sources (rag_service._prepare_sources (chunk :: chunks));
     GenerationStart (Py.lit "Generating answer...")]
    ++ map Token (external.fragments stream) ++ [Done true].
Proof.
  intros Hretrieved stream Hfailure Hplain.
  unfold rag_service.events_of. rewrite stream_query_run, Hretrieved. cbv zeta.
  fold stream. rewrite Hfailure, (stream_tokens_plain _ Hplain).
  unfold add_events. cbn [emitted snd]. now rewrite <- app_assoc.
Qed.

(** What the code does on an error-tagged fragment, in general: the
    [error] event is followed by [done]. *)
Lemma stream_query_error_then_done (query collection : str) (max_sources : Z)
    (temperature : float) (chunk : DocumentChunk.t) (chunks : list DocumentChunk.t)
    (before : list str) (token : str) (after : list str) :
  vector_service.retrieved env query collection max_sources = chunk :: chunks ->
  external.fragments
    (external.generate_streaming_response env
       (rag_service._create_rag_prompt query (rag_service._prepare_context (chunk :: chunks)))
       temperature 300)
  = before ++ token :: after ->
  Forall rag_service.plain before ->
  Py.startswith token (Py.lit "ERROR:") = true ->
  rag_service.events_of (rag_service.stream_query env query collection max_sources temperature)
  = [SourcesSearch (Py.lit "Searching for relevant documents...");
     Sources (rag_service._prepare_sources (chunk :: chunks));
     GenerationStart (Py.lit "Generating answer...")]
    ++ map Token before ++ [Error token; Done true].
Proof.
  intros Hretrieved Hfragments Hbefore Htoken.
  unfold rag_service.events_of. rewrite stream_query_run, Hretrieved. cbv zeta.
  rewrite Hfragments, (stream_tokens_error before token after _ Hbefore Htoken).
  unfold add_events. cbn [emitted snd]. now rewrite <- !app_assoc.
Qed.

(** C3, as the code has it: when the search finds no chunk, [query] returns
    a response whose answer is the fixed text [no_documents_answer], whose
    source list is empty, and no call to the Answer Generator is made;
    [stream_query] yields [sources_search] and then one [answer] event
    carrying its own fixed text and the completion mark, and nothing else,
    again without calling the Answer Generator. *)
Theorem no_chunks_fallback (query collection : str) (max_sources : Z) (temperature : float) :
  vector_service.retrieved env query collection max_sources = [] ->
  (exists response w,
     rag_service.query env query collection max_sources temperature start_of_request
     = (Ok response, w) /\
     ChatResponse.answer response = rag_service.no_documents_answer /\
     ChatResponse.sources response = [] /\
     Forall (fun c => ~ generator_call c) (calls w)) /\
  rag_service.events_of (rag_service.stream_query env query collection max_sources temperature)
  = [SourcesSearch (Py.lit "Searching for relevant documents...");
     Answer (Py.lit "No relevant documents were found to answer this question.") true] /\
  Forall (fun c => ~ generator_call c)
    (calls (snd (rag_service.stream_query env query collection max_sources temperature
                   start_of_request))).
Proof.
  intros Hretrieved. unfold rag_service.events_of.
  rewrite query_run, stream_query_run, Hretrieved. cbv zeta.
  split; [|split; [reflexivity|apply retrieval_calls_no_generator]].
  eexists _, _. split; [reflexivity|]. repeat split. apply retrieval_calls_no_generator.
Qed.


End orchestrator_facts.

(** ** The claims on concrete data *)

Section concrete_runs.

Local Existing Instance thousandths.

Import effects.
Import scenario.

Local Abbreviation question := (Py.lit "What do cats do?").
Local Abbreviation cats_source :=
  (ChatSource.mk (Py.lit "d1") (Py.lit "cats.txt") (Some (Py.lit "1")) (Py.lit "Cats purr.") 750).

(** C1 does not hold of the code. One chunk is retrieved and the generator
    yields ["Cats "], then the error-tagged ["ERROR: connection lost"]:
    [stream_query] yields the [error] event, leaves the loop, and then
    yields [done] all the same, so the [error] event is not the last one. *)
Theorem stream_query_done_after_error :
  rag_service.events_of
    (rag_service.stream_query
       (deployment (Ok cats_index) (Ok [[1; 2]]) (Ok purring)
          {| external.fragments :=
               [Py.lit "Cats "; Py.lit "ERROR: connection lost"; Py.lit "purr"];
             external.failure := None |})
       question (Py.lit "default") 5 100)
  = [SourcesSearch (Py.lit "Searching for relevant documents...");
     Sources [cats_source];
     GenerationStart (Py.lit "Generating answer...");
     Token (Py.lit "Cats ");
     Error (Py.lit "ERROR: connection lost");
     Done true].
Proof. match goal with |- _ = ?evs => vm_cast_no_check (@eq_refl _ evs) end. Qed.

Lemma stream_query_tokens_in_order_witness :
  exists chunk,
    vector_service.retrieved
      (deployment (Ok cats_index) (Ok [[1; 2]]) (Ok purring)
         {| external.fragments := [Py.lit "They "; Py.lit "purr"; Py.lit "."];
            external.failure := None |})
      question (Py.lit "default") 5 = [chunk] /\
    rag_service.events_of
      (rag_service.stream_query
         (deployment (Ok cats_index) (Ok [[1; 2]]) (Ok purring)
            {| external.fragments := [Py.lit "They "; Py.lit "purr"; Py.lit "."];
               external.failure := None |})
         question (Py.lit "default") 5 100)
    = [SourcesSearch (Py.lit "Searching for relevant documents...");
       Sources (rag_service._prepare_sources [chunk]);
       GenerationStart (Py.lit "Generating answer...")]
      ++ map Token [Py.lit "They "; Py.lit "purr"; Py.lit "."] ++ [Done true].
Proof.
  eexists. split; [vm_compute; reflexivity|].
  apply (stream_query_tokens_in_order
           (deployment (Ok cats_index) (Ok [[1; 2]]) (Ok purring)
              {| external.fragments := [Py.lit "They "; Py.lit "purr"; Py.lit "."];
                 external.failure := None |})
           question (Py.lit "default") 5 100).
  - vm_compute; reflexivity.
  - reflexivity.
  - repeat constructor.
Defined.

Lemma no_chunks_fallback_witness :
  vector_service.retrieved
    (deployment (Raise (Py.lit "Collection default does not exist.")) (Ok [[1; 2]])
       (Ok purring) silent)
    question (Py.lit "default") 5 = [] /\
  (exists response w,
     rag_service.query
       (deployment (Raise (Py.lit "Collection default does not exist.")) (Ok [[1; 2]])
          (Ok purring) silent)
       question (Py.lit "default") 5 100 start_of_request = (Ok response, w) /\
     ChatResponse.answer response = rag_service.no_documents_answer /\
     ChatResponse.sources response = [] /\
     Forall (fun c => ~ generator_call c) (calls w)) /\
  rag_service.events_of
    (rag_service.stream_query
       (deployment (Raise (Py.lit "Collection default does not exist.")) (Ok [[1; 2]])
          (Ok purring) silent)
       question (Py.lit "default") 5 100)
  = [SourcesSearch (Py.lit "Searching for relevant documents...");
     Answer (Py.lit "No relevant documents were found to answer this question.") true] /\
  Forall (fun c => ~ generator_call c)
    (calls (snd (rag_service.stream_query
                   (deployment (Raise (Py.lit "Collection default does not exist."))
                      (Ok [[1; 2]]) (Ok purring) silent)
                   question (Py.lit "default") 5 100 start_of_request))).
Proof.
  split; [reflexivity|].
  apply (no_chunks_fallback
           (deployment (Raise (Py.lit "Collection default does not exist.")) (Ok [[1; 2]])
              (Ok purring) silent)
           question (Py.lit "default") 5 100).
  reflexivity.
Defined.

(** C3 fails as stated: with a missing collection, the answer returned is
    not the text ["no relevant documents found"], and the text of the
    [answer] event of the streaming path is yet another one. *)
Lemma no_chunks_answer_is_another_text :
  exists response w,
    rag_service.query
      (deployment (Raise (Py.lit "Collection default does not exist.")) (Ok [[1; 2]])
         (Ok purring) silent)
      question (Py.lit "default") 5 100 start_of_request = (Ok response, w) /\
    ChatResponse.answer response <> Py.lit "no relevant documents found" /\
    rag_service.events_of
      (rag_service.stream_query
         (deployment (Raise (Py.lit "Collection default does not exist.")) (Ok [[1; 2]])
            (Ok purring) silent)
         question (Py.lit "default") 5 100)
    <> [SourcesSearch (Py.lit "Searching for relevant documents...");
        Answer (Py.lit "no relevant documents found") true].
Proof.
  eexists _, _. split; [|split].
  - rewrite query_run.
    change (vector_service.retrieved _ _ _ _) with (@nil DocumentChunk.t). reflexivity.
  - cbn [ChatResponse.answer]. intros Heq.
    apply (f_equal List.length) in Heq. vm_compute in Heq. discriminate.
  - unfold rag_service.events_of. rewrite stream_query_run.
    change (vector_service.retrieved _ _ _ _) with (@nil DocumentChunk.t).
    cbn [snd emitted]. intros Heq.
    apply (f_equal (fun evs => match evs with
                               | [_; Answer content _] => List.length content
                               | _ => 0%nat
                               end)) in Heq.
    vm_compute in Heq. discriminate.
Qed.



End concrete_runs.

(** ** The chunker: coverage, boundaries, order, divergence *)

Section chunker_more.

Import Py.
Import document_service.

Variable text : str.
Variable doc_id : str.
Variable file_name : option str.
Variable page_no : option Z.
Variable chunk_size : Z.
Variable chunk_overlap : Z.

Local Abbreviation chunk_end := (chunk_end text chunk_size).
Local Abbreviation next_start := (next_start text chunk_size chunk_overlap).
Local Abbreviation loop_body :=
  (loop_body text doc_id file_name page_no chunk_size chunk_overlap).
Local Abbreviation loop := (loop text doc_id file_name page_no chunk_size chunk_overlap).
Local Abbreviation split_into_chunks :=
  (_split_into_chunks text doc_id file_name page_no chunk_size chunk_overlap).
Local Abbreviation make_chunk := (make_chunk doc_id file_name page_no).

Lemma slice_prefix (s : str) (b : Z) : len s <= b -> slice s 0 b = s.
Proof.
  intros Hb. unfold slice, adjust. pose proof (len_nonneg s) as Hn.
  destruct (Z.ltb_spec b 0); [lia|]. simpl.
  rewrite (Z.min_r b) by lia. rewrite Z.min_l, Z.sub_0_r by lia. simpl.
  unfold len. rewrite Nat2Z.id. apply firstn_all.
Qed.

Lemma slice_lookup (s : str) (a b : Z) (p : nat) (c : N) :
  0 <= a -> a <= Z.of_nat p -> Z.of_nat p < b -> s !! p = Some c -> c ∈ slice s a b.
Proof.
  intros Ha Hap Hpb Hp. pose proof (lookup_lt_Some _ _ _ Hp) as Hlt.
  unfold slice, adjust, len.
  destruct (Z.ltb_spec a 0); [lia|]. destruct (Z.ltb_spec b 0); [lia|].
  apply (list_elem_of_lookup_2 _ (p - Z.to_nat a)%nat).
  rewrite lookup_take_lt by lia. rewrite lookup_drop, <- Hp. f_equal. lia.
Qed.

Lemma rstrip_nil_spaces (s : str) : rstrip s = [] -> Forall (fun c => isspace c = true) s.
Proof.
  induction s as [|c s IH]; simpl; [constructor|].
  destruct (rstrip s); [|discriminate].
  destruct (isspace c) eqn:Hc; [|discriminate]. intros _. constructor; auto.
Qed.

Lemma lstrip_spaces (s : str) :
  Forall (fun c => isspace c = true) (lstrip s) -> Forall (fun c => isspace c = true) s.
Proof.
  induction s as [|c s IH]; simpl; [constructor|].
  destruct (isspace c) eqn:Hc; [|auto]. intros Hs. constructor; auto.
Qed.

Lemma strip_nil_spaces (s : str) : strip s = [] -> Forall (fun c => isspace c = true) s.
Proof. intros Hs. now apply lstrip_spaces, rstrip_nil_spaces. Qed.

(** What [rfind] returns, when it is not [-1], is a position of the needle. *)
Lemma rfind_scan_sound (s : str) (c : N) (lo hi : Z) :
  forall i0 best,
    rfind_scan s c lo hi i0 best = best
    \/ (i0 <= rfind_scan s c lo hi i0 best
        /\ s !! Z.to_nat (rfind_scan s c lo hi i0 best - i0) = Some c).
Proof.
  induction s as [|x s IH]; intros i0 best; simpl; [now left|].
  set (best' := if (lo <=? i0) && (i0 <? hi) && (x =? c)%N then i0 else best).
  destruct (IH (i0 + 1) best') as [Heq|[Hle Hat]].
  - rewrite Heq. unfold best'.
    destruct ((lo <=? i0) && (i0 <? hi) && (x =? c)%N) eqn:Htest; [|now left].
    right. split; [lia|]. rewrite Z.sub_diag. simpl.
    apply andb_prop in Htest as [_ Hx]. apply N.eqb_eq in Hx. now subst.
  - right. split; [lia|].
    replace (Z.to_nat (rfind_scan s c lo hi (i0 + 1) best' - i0))
      with (S (Z.to_nat (rfind_scan s c lo hi (i0 + 1) best' - (i0 + 1)))) by lia.
    exact Hat.
Qed.

Lemma rfind_sound (s : str) (c : N) (a b : Z) :
  rfind s c a b = -1 \/ (0 <= rfind s c a b /\ s !! Z.to_nat (rfind s c a b) = Some c).
Proof.
  unfold rfind. destruct (rfind_scan_sound s c (window_lo (len s) a) (window_hi (len s) b) 0 (-1))
    as [Heq|[Hle Hat]]; [now left|right].
  rewrite Z.sub_0_r in Hat. now split.
Qed.

(** For a cursor inside the text, the end chosen is the candidate end or
    the position just past a sentence terminator. *)
Lemma chunk_end_boundary (s : Z) :
  0 <= s ->
  chunk_end s = s + chunk_size
  \/ exists c, (c = 46 \/ c = 33 \/ c = 63)%N
               /\ text !! Z.to_nat (chunk_end s - 1) = Some c.
Proof.
  intros Hs. unfold document_service.chunk_end.
  destruct (Z.ltb_spec (s + chunk_size) (len text)) as [Hlt|]; [|now left].
  set (p := rfind text 46 _ _). set (e := rfind text 33 _ _). set (q := rfind text 63 _ _).
  destruct (Z.ltb_spec s (Z.max (Z.max p e) q)) as [Hm|]; [|now left].
  right. rewrite Z.add_simpl_r.
  pose proof (rfind_sound text 46 (s + chunk_size - 100) (s + chunk_size)) as Hp.
  pose proof (rfind_sound text 33 (s + chunk_size - 100) (s + chunk_size)) as He.
  pose proof (rfind_sound text 63 (s + chunk_size - 100) (s + chunk_size)) as Hq.
  fold p in Hp. fold e in He. fold q in Hq.
  assert (Hcase : Z.max (Z.max p e) q = p \/ Z.max (Z.max p e) q = e
                  \/ Z.max (Z.max p e) q = q) by lia.
  destruct Hcase as [Hc|[Hc|Hc]]; rewrite Hc in *.
  - destruct Hp as [Hp|[_ Hp]]; [lia|]. exists 46%N. auto.
  - destruct He as [He|[_ He]]; [lia|]. exists 33%N. auto.
  - destruct Hq as [Hq|[_ Hq]]; [lia|]. exists 63%N. auto.
Qed.

(** One iteration with the search window clear of the next cursor. *)
Lemma clear_window_step (s : Z) :
  0 <= chunk_overlap -> chunk_overlap + 100 <= chunk_size -> 0 <= s ->
  s + chunk_overlap + 1 <= chunk_end s <= s + chunk_size
  /\ s < next_start s <= chunk_end s
  /\ chunk_end s <= next_start s + chunk_overlap
  /\ (len text <= chunk_end s -> len text <= next_start s).
Proof.
  intros HO HS Hs. unfold document_service.next_start.
  pose proof (len_nonneg text) as HL.
  destruct (chunk_end_cases text chunk_size s)
    as [->|[(Hlt & Hs' & ->)|(Hlt & se & -> & Hs' & Hw)]].
  - destruct (Z.ltb_spec (s + chunk_size) (len text)); lia.
  - lia.
  - unfold window_lo, window_hi in Hw.
    repeat match goal with
           | |- context [Z.ltb ?a ?b] => destruct (Z.ltb_spec a b)
           | H : context [Z.ltb ?a ?b] |- _ => destruct (Z.ltb_spec a b)
           end; lia.
Qed.

Lemma lstrip_keeps (c : N) (s : str) : c ∈ s -> isspace c = false -> c ∈ lstrip s.
Proof.
  intros Hc Hns. induction s as [|x s IH]; simpl; [exact Hc|].
  destruct (isspace x) eqn:Hx; [|exact Hc].
  apply elem_of_cons in Hc as [->|Hc]; [congruence|auto].
Qed.

Lemma rstrip_keeps (c : N) (s : str) : c ∈ s -> isspace c = false -> c ∈ rstrip s.
Proof.
  intros Hc Hns. induction s as [|x s IH]; simpl; [exact Hc|].
  apply elem_of_cons in Hc as [->|Hc].
  - destruct (rstrip s); [rewrite Hns|]; apply elem_of_cons; auto.
  - specialize (IH Hc). destruct (rstrip s) as [|y r]; [now apply elem_of_nil in IH|].
    apply elem_of_cons. auto.
Qed.

Lemma strip_keeps (c : N) (s : str) : c ∈ s -> isspace c = false -> c ∈ strip s.
Proof. intros Hc Hns. apply rstrip_keeps; [apply lstrip_keeps|]; assumption. Qed.

(** A property that every iteration keeps holds when the loop stops, and
    the cursor is then at or past the end of the text. *)
Lemma loop_invariant_exit (I : loop_state -> Prop) :
  (forall st, start st < len text -> I st -> I (loop_body st)) ->
  forall fuel st cs, I st -> loop fuel st = Some cs ->
    exists st', I st' /\ chunks st' = cs /\ len text <= start st'.
Proof.
  intros Hstep. induction fuel as [|fuel IH]; intros st cs HI; simpl;
    destruct (Z.ltb_spec (start st) (len text)) as [Hlt|Hge]; intros Hrun.
  - discriminate.
  - injection Hrun as <-. eauto.
  - eapply IH; [|exact Hrun]. now apply Hstep.
  - injection Hrun as <-. eauto.
Qed.

Lemma short_text_one_slice (fuel : nat) :
  len text <= chunk_size ->
  split_into_chunks (S fuel)
  = Some match strip text with
         | [] => []
         | _ :: _ => [make_chunk 0 0 chunk_size (strip text)]
         end.
Proof.
  intros Hlen. unfold _split_into_chunks.
  assert (Hend : chunk_end 0 = chunk_size).
  { unfold document_service.chunk_end. destruct (Z.ltb_spec (0 + chunk_size) (len text)); lia. }
  assert (Hnext : next_start 0 = chunk_size).
  { unfold document_service.next_start. rewrite Hend.
    destruct (Z.ltb_spec chunk_size (len text)); lia. }
  assert (Hslice : slice text 0 (chunk_end 0) = text).
  { rewrite Hend. now apply slice_prefix. }
  assert (Hstop : forall st, start st = chunk_size -> loop fuel st = Some (chunks st)).
  { intros st Hst. destruct fuel; simpl; rewrite Hst;
      destruct (Z.ltb_spec chunk_size (len text)); (lia || reflexivity). }
  simpl. destruct (Z.ltb_spec 0 (len text)) as [Hpos|Hzero].
  - rewrite Hstop; unfold document_service.loop_body; simpl; rewrite Hslice;
      destruct (strip text); simpl; rewrite ?Hend; auto.
  - destruct text; [reflexivity|]. unfold len in Hzero. simpl in Hzero. lia.
Qed.

(** A text no longer than the chunk size is one slice: it gives one chunk,
    numbered 0 and holding the trimmed text, or no chunk when the trimmed
    text is empty; overlap and sentence terminators play no part. *)
Theorem split_short_text (fuel : nat) :
  len text <= chunk_size ->
  split_into_chunks (S fuel)
  = Some match strip text with
         | [] => []
         | _ :: _ => [make_chunk 0 0 chunk_size (strip text)]
         end.
Proof. apply short_text_one_slice. Qed.

(** Whatever the configuration, every chunk returned is the record built
    from the trimmed slice of the text between the offsets recorded with
    it, the end offset being the one chosen for that start, with the
    document id, file name and page passed in. *)
Theorem split_chunks_are_trimmed_slices (fuel : nat) (cs : list chunk) :
  split_into_chunks fuel = Some cs ->
  Forall (fun ch =>
            end_pos ch = chunk_end (start_pos ch) /\
            ch = make_chunk (chunk_index ch) (start_pos ch) (end_pos ch)
                   (strip (slice text (start_pos ch) (end_pos ch)))) cs.
Proof.
  intros Hrun.
  destruct (loop_invariant_exit
              (fun st => Forall (fun ch =>
                 end_pos ch = chunk_end (start_pos ch) /\
                 ch = make_chunk (chunk_index ch) (start_pos ch) (end_pos ch)
                        (strip (slice text (start_pos ch) (end_pos ch)))) (chunks st)))
    with (fuel := fuel) (st := {| start := 0; next_index := 0; chunks := [] |}) (cs := cs)
    as (st' & Hall & <- & _); [|constructor|exact Hrun|exact Hall].
  intros st _ Hall. unfold document_service.loop_body.
  destruct (strip (slice text (start st) (chunk_end (start st)))) as [|c t] eqn:Hstrip;
    [exact Hall|].
  simpl. apply Forall_app. split; [exact Hall|].
  constructor; [|constructor]. simpl. split; [reflexivity|]. now rewrite Hstrip.
Qed.

(** With a non-negative overlap at least 100 below the chunk size, no text
    is lost: every character of the text that is not whitespace lies
    between the offsets of some chunk returned, and occurs in its content. *)
Theorem split_covers_text (fuel : nat) (cs : list chunk) (p : nat) (c : N) :
  0 <= chunk_overlap -> chunk_overlap + 100 <= chunk_size ->
  split_into_chunks fuel = Some cs ->
  text !! p = Some c -> isspace c = false ->
  exists ch, ch ∈ cs /\ start_pos ch <= Z.of_nat p < end_pos ch /\ c ∈ content ch.
Proof.
  intros HO HS Hrun Hp Hns.
  set (covered := fun st : loop_state =>
         0 <= start st /\
         forall q d, text !! q = Some d -> isspace d = false -> Z.of_nat q < start st ->
           exists ch, ch ∈ chunks st /\ start_pos ch <= Z.of_nat q < end_pos ch
                      /\ d ∈ content ch).
  destruct (loop_invariant_exit covered)
    with (fuel := fuel) (st := {| start := 0; next_index := 0; chunks := [] |}) (cs := cs)
    as (st' & [_ Hcov] & <- & Hexit); [| |exact Hrun|].
  - intros st Hlt [Hs Hcov].
    destruct (clear_window_step (start st) HO HS Hs) as (Hend & Hnext & _ & _).
    assert (Hstart : start (loop_body st) = next_start (start st)).
    { unfold document_service.loop_body. now destruct (strip _). }
    split; [lia|]. intros q d Hq Hd Hlt'. rewrite Hstart in Hlt'.
    destruct (Z.ltb_spec (Z.of_nat q) (start st)) as [Hold|Hnew].
    + destruct (Hcov q d Hq Hd Hold) as (ch & Hin & Hpos & Hd').
      exists ch. split; [|now split]. unfold document_service.loop_body.
      destruct (strip _); simpl; [exact Hin|]. apply elem_of_app. now left.
    + assert (Hslice : d ∈ strip (slice text (start st) (chunk_end (start st)))).
      { apply strip_keeps; [|exact Hd]. apply (slice_lookup text _ _ q); auto; lia. }
      unfold document_service.loop_body.
      destruct (strip (slice text (start st) (chunk_end (start st)))) as [|x t] eqn:Hstrip;
        [now apply elem_of_nil in Hslice|].
      eexists. split; [simpl; apply elem_of_app; right; apply list_elem_of_singleton;
                       reflexivity|].
      simpl. split; [lia|exact Hslice].
  - split; [simpl; lia|]. simpl. intros q d _ _ Hq. lia.
  - apply (Hcov p c Hp Hns). pose proof (lookup_lt_Some _ _ _ Hp). unfold len in Hexit. lia.
Qed.

(** With such a configuration, every chunk returned spans exactly
    [chunk_size] characters from its start, or ends just past a full stop,
    an exclamation mark or a question mark of the text. *)
Theorem split_ends_on_sentence_boundary (fuel : nat) (cs : list chunk) :
  0 <= chunk_overlap -> chunk_overlap + 100 <= chunk_size ->
  split_into_chunks fuel = Some cs ->
  Forall (fun ch =>
            end_pos ch = start_pos ch + chunk_size
            \/ exists c, (c = 46 \/ c = 33 \/ c = 63)%N
                         /\ text !! Z.to_nat (end_pos ch - 1) = Some c) cs.
Proof.
  intros HO HS Hrun.
  destruct (loop_invariant_exit
              (fun st => 0 <= start st /\
                 Forall (fun ch =>
                   end_pos ch = start_pos ch + chunk_size
                   \/ exists c, (c = 46 \/ c = 33 \/ c = 63)%N
                                /\ text !! Z.to_nat (end_pos ch - 1) = Some c) (chunks st)))
    with (fuel := fuel) (st := {| start := 0; next_index := 0; chunks := [] |}) (cs := cs)
    as (st' & [_ Hall] & <- & _); [| |exact Hrun|exact Hall].
  - intros st _ [Hs Hall].
    destruct (clear_window_step (start st) HO HS Hs) as (_ & Hnext & _ & _).
    pose proof (chunk_end_boundary (start st) Hs) as Hb.
    unfold document_service.loop_body.
    destruct (strip (slice text (start st) (chunk_end (start st)))); simpl;
      (split; [lia|]); [exact Hall|].
    apply Forall_app. split; [exact Hall|]. constructor; [|constructor]. exact Hb.
  - split; [simpl; lia|constructor].
Qed.

(** With such a configuration, the chunks come in text order: every chunk
    starts inside the text and before it ends, and both the start and the
    end offsets strictly increase along the list returned. *)
Theorem split_offsets_increase (fuel : nat) (cs : list chunk) :
  0 <= chunk_overlap -> chunk_overlap + 100 <= chunk_size ->
  split_into_chunks fuel = Some cs ->
  Forall (fun ch => 0 <= start_pos ch < len text /\ start_pos ch < end_pos ch) cs /\
  forall i j ci cj,
    (i < j)%nat -> cs !! i = Some ci -> cs !! j = Some cj ->
    start_pos ci < start_pos cj /\ end_pos ci < end_pos cj.
Proof.
  intros HO HS Hrun.
  set (ordered := fun st : loop_state =>
         0 <= start st /\
         Forall (fun ch => 0 <= start_pos ch < len text /\ start_pos ch < end_pos ch /\
                           start_pos ch < start st /\
                           end_pos ch <= start st + chunk_overlap) (chunks st) /\
         forall i j ci cj,
           (i < j)%nat -> chunks st !! i = Some ci -> chunks st !! j = Some cj ->
           start_pos ci < start_pos cj /\ end_pos ci < end_pos cj).
  destruct (loop_invariant_exit ordered)
    with (fuel := fuel) (st := {| start := 0; next_index := 0; chunks := [] |}) (cs := cs)
    as (st' & (_ & Hall & Hord) & <- & _); [| |exact Hrun|].
  - intros st Hlt (Hs & Hall & Hord).
    destruct (clear_window_step (start st) HO HS Hs) as (Hend & Hnext & Hback & _).
    assert (Hold : Forall (fun ch => 0 <= start_pos ch < len text /\
                             start_pos ch < end_pos ch /\
                             start_pos ch < next_start (start st) /\
                             end_pos ch <= next_start (start st) + chunk_overlap) (chunks st)).
    { eapply Forall_impl; [exact Hall|]. simpl. intros ch ?. lia. }
    unfold ordered, document_service.loop_body.
    destruct (strip (slice text (start st) (chunk_end (start st))));
      cbn [start chunks next_index]; (split; [lia|]); [now split|].
    split.
    + apply Forall_app. split; [exact Hold|]. constructor; [|constructor].
      cbn [start_pos end_pos document_service.make_chunk]. lia.
    + intros i j ci cj Hij Hi Hj.
      apply lookup_app_Some in Hj as [Hj|[Hlen Hj]].
      * rewrite lookup_app_l in Hi by (apply lookup_lt_Some in Hj; lia). eauto.
      * apply list_lookup_singleton_Some in Hj as [Hj <-]. simpl.
        rewrite lookup_app_l in Hi by lia.
        apply list_elem_of_lookup_2 in Hi.
        rewrite Forall_forall in Hall. specialize (Hall ci Hi). simpl in Hall. lia.
  - split; [simpl; lia|]. split; [constructor|].
    simpl. intros i j ci cj _ Hi. now rewrite lookup_nil in Hi.
  - split; [|exact Hord]. eapply Forall_impl; [exact Hall|]. simpl. intros ch ?. lia.
Qed.

(** With an overlap not smaller than a (non-negative) chunk size, chunking
    a text longer than the chunk size never stops: each cursor leaves the
    candidate end, and so the next cursor plus the chunk size, before the
    end of the text. *)
Theorem split_diverges_overlap_not_smaller (fuel : nat) :
  0 <= chunk_size -> chunk_size <= chunk_overlap -> chunk_size < len text ->
  split_into_chunks fuel = None.
Proof.
  intros HS HO Hlen. unfold _split_into_chunks.
  assert (Hstuck : forall fuel st, start st + chunk_size < len text -> loop fuel st = None).
  { clear fuel. induction fuel as [|fuel IH]; intros st Hst; simpl;
      destruct (Z.ltb_spec (start st) (len text)); try lia; [reflexivity|].
    apply IH.
    assert (Hstart : start (loop_body st) = next_start (start st)).
    { unfold document_service.loop_body. now destruct (strip _). }
    rewrite Hstart. unfold document_service.next_start.
    destruct (chunk_end_cases text chunk_size (start st))
      as [->|[(Hlt & Hs' & ->)|(Hlt & se & -> & Hs' & Hw)]].
    - destruct (Z.ltb_spec (start st + chunk_size) (len text)); lia.
    - destruct (Z.ltb_spec 0 (len text)); lia.
    - unfold window_lo, window_hi in Hw.
      repeat match goal with
             | |- context [Z.ltb ?a ?b] => destruct (Z.ltb_spec a b)
             | H : context [Z.ltb ?a ?b] |- _ => destruct (Z.ltb_spec a b)
             end; lia. }
  apply Hstuck. simpl. lia.
Qed.

End chunker_more.

Lemma split_short_text_witness :
  Py.len (Py.lit "  Cats purr. Dogs bark!  ") <= 800 /\
  document_service._split_into_chunks (Py.lit "  Cats purr. Dogs bark!  ") (Py.lit "d1")
    None None 800 200 1
  = Some [document_service.make_chunk (Py.lit "d1") None None 0 0 800
            (Py.lit "Cats purr. Dogs bark!")].
Proof.
  split; [vm_compute; discriminate|].
  apply (split_short_text (Py.lit "  Cats purr. Dogs bark!  ") (Py.lit "d1") None None 800 200 0).
  vm_compute; discriminate.
Defined.

Lemma split_chunks_are_trimmed_slices_witness :
  exists cs,
    document_service._split_into_chunks (Py.lit "Hello world. This is a test!")
      (Py.lit "d1") None (Some 7) 10 0 4 = Some cs /\
    (1 < List.length cs)%nat /\
    Forall (fun ch =>
              document_service.end_pos ch
              = document_service.chunk_end (Py.lit "Hello world. This is a test!") 10
                  (document_service.start_pos ch) /\
              ch = document_service.make_chunk (Py.lit "d1") None (Some 7)
                     (document_service.chunk_index ch) (document_service.start_pos ch)
                     (document_service.end_pos ch)
                     (Py.strip (Py.slice (Py.lit "Hello world. This is a test!")
                                  (document_service.start_pos ch)
                                  (document_service.end_pos ch)))) cs.
Proof.
  eexists. split; [vm_compute; reflexivity|]. split; [vm_compute; lia|].
  apply (split_chunks_are_trimmed_slices (Py.lit "Hello world. This is a test!")
           (Py.lit "d1") None (Some 7) 10 0 4).
  vm_compute; reflexivity.
Defined.

Lemma split_covers_text_witness :
  exists cs ch,
    0 <= 10 /\ 10 + 100 <= 120 /\
    document_service._split_into_chunks (concat (replicate 20 (Py.lit "Cats purr. ")))
      (Py.lit "d1") None None 120 10 220 = Some cs /\
    concat (replicate 20 (Py.lit "Cats purr. ")) !! 150%nat = Some 114%N /\
    Py.isspace 114 = false /\
    ch ∈ cs /\
    document_service.start_pos ch <= 150 < document_service.end_pos ch /\
    114%N ∈ document_service.content ch.
Proof.
  assert (Hrun : exists cs,
             document_service._split_into_chunks (concat (replicate 20 (Py.lit "Cats purr. ")))
               (Py.lit "d1") None None 120 10 220 = Some cs).
  { eexists. vm_compute. reflexivity. }
  destruct Hrun as [cs Hrun].
  destruct (split_covers_text (concat (replicate 20 (Py.lit "Cats purr. "))) (Py.lit "d1")
              None None 120 10 220 cs 150 114%N) as (ch & Hin & Hpos & Hc);
    [lia|lia|exact Hrun|reflexivity|reflexivity|].
  exists cs, ch. repeat split; try lia; auto.
Defined.

Lemma split_ends_on_sentence_boundary_witness :
  exists cs,
    0 <= 10 /\ 10 + 100 <= 120 /\
    document_service._split_into_chunks (concat (replicate 20 (Py.lit "Cats purr. ")))
      (Py.lit "d1") None None 120 10 220 = Some cs /\
    (1 < List.length cs)%nat /\
    Forall (fun ch =>
              document_service.end_pos ch = document_service.start_pos ch + 120
              \/ exists c, (c = 46 \/ c = 33 \/ c = 63)%N
                           /\ concat (replicate 20 (Py.lit "Cats purr. "))
                                !! Z.to_nat (document_service.end_pos ch - 1) = Some c) cs.
Proof.
  eexists. split; [lia|]. split; [lia|]. split; [vm_compute; reflexivity|].
  split; [vm_compute; lia|].
  apply (split_ends_on_sentence_boundary (concat (replicate 20 (Py.lit "Cats purr. ")))
           (Py.lit "d1") None None 120 10 220); [lia|lia|vm_compute; reflexivity].
Defined.

Lemma split_offsets_increase_witness :
  exists cs,
    0 <= 10 /\ 10 + 100 <= 120 /\
    document_service._split_into_chunks (concat (replicate 20 (Py.lit "Cats purr. ")))
      (Py.lit "d1") None None 120 10 220 = Some cs /\
    (1 < List.length cs)%nat /\
    Forall (fun ch =>
              0 <= document_service.start_pos ch
              < Py.len (concat (replicate 20 (Py.lit "Cats purr. "))) /\
              document_service.start_pos ch < document_service.end_pos ch) cs /\
    forall i j ci cj,
      (i < j)%nat -> cs !! i = Some ci -> cs !! j = Some cj ->
      document_service.start_pos ci < document_service.start_pos cj /\
      document_service.end_pos ci < document_service.end_pos cj.
Proof.
  eexists. split; [lia|]. split; [lia|]. split; [vm_compute; reflexivity|].
  split; [vm_compute; lia|].
  apply (split_offsets_increase (concat (replicate 20 (Py.lit "Cats purr. ")))
           (Py.lit "d1") None None 120 10 220); [lia|lia|vm_compute; reflexivity].
Defined.

(** Chunk size and overlap both 200 on a text of 220 characters. *)
Lemma split_diverges_overlap_not_smaller_witness :
  0 <= 200 /\ 200 <= 200 /\
  200 < Py.len (concat (replicate 20 (Py.lit "Cats purr. "))) /\
  document_service._split_into_chunks (concat (replicate 20 (Py.lit "Cats purr. ")))
    (Py.lit "d1") None None 200 200 1000 = None.
Proof.
  split; [lia|]. split; [lia|]. split; [vm_compute; reflexivity|].
  apply (split_diverges_overlap_not_smaller (concat (replicate 20 (Py.lit "Cats purr. ")))
           (Py.lit "d1") None None 200 200 1000); [lia|lia|vm_compute; reflexivity].
Defined.

(** ** The text normalizer: shape, length and blank text *)

Section normalizer_more.

Import Py.
Import document_service.

Lemma join_cons_length (sep p : str) (ps : list str) :
  (List.length (join sep (p :: ps))
   <= List.length p + List.length sep + List.length (join sep ps))%nat.
Proof. destruct ps; simpl; rewrite ?length_app; lia. Qed.

Lemma split_join_length (s : str) :
  forall cur,
    (List.length (join [32%N] (split_from cur s)) <= List.length cur + List.length s)%nat.
Proof.
  induction s as [|c s IH]; intros cur; simpl.
  - destruct cur; simpl; [lia|]. rewrite length_app, length_rev. simpl. lia.
  - destruct (isspace c).
    + destruct cur as [|d cur].
      * specialize (IH []). simpl in *. lia.
      * pose proof (join_cons_length [32%N] (rev (d :: cur)) (split_from [] s)) as Hj.
        specialize (IH []). rewrite length_rev in Hj. simpl in *. lia.
    + specialize (IH (c :: cur)). simpl in IH. lia.
Qed.

Lemma lines_join_length (s : str) :
  forall cur,
    (List.length
       (join [10%N]
          (filter (fun line : str => line <> [])
             (map (fun line : str => join [32%N] (split line)) (splitlines_from cur s))))
     <= List.length cur + List.length s)%nat.
Proof.
  induction s as [s IHs] using (induction_ltof1 _ (@List.length N)).
  assert (Hline : forall (cur : str) (rest : list str) (n : nat),
            (List.length
               (join [10%N]
                  (filter (fun line : str => line <> [])
                     (map (fun line : str => join [32%N] (split line)) rest))) <= n)%nat ->
            (List.length
               (join [10%N]
                  (filter (fun line : str => line <> [])
                     (map (fun line : str => join [32%N] (split line)) (rev cur :: rest))))
             <= List.length cur + 1 + n)%nat).
  { intros cur rest n Hrest. cbn [map]. rewrite filter_cons.
    pose proof (split_join_length (rev cur) []) as Hw. rewrite length_rev in Hw.
    fold (split (rev cur)) in Hw. cbn [List.length] in Hw.
    destruct (decide _); [|lia].
    etransitivity; [apply join_cons_length|]. cbn [List.length]. lia. }
  intros cur. destruct s as [|c s]; cbn [splitlines_from].
  - destruct cur as [|d cur]; [cbn; lia|].
    cbn [map]. rewrite filter_cons, filter_nil.
    pose proof (split_join_length (rev (d :: cur)) []) as Hw. rewrite length_rev in Hw.
    fold (split (rev (d :: cur))) in Hw.
    destruct (decide _); cbn [join List.length] in *; lia.
  - destruct (islinebreak c).
    + destruct s as [|c' s'].
      * cbn [splitlines_from].
        specialize (Hline cur [] 0%nat ltac:(cbn; lia)). cbn [List.length] in *. lia.
      * destruct ((c =? 13)%N && (c' =? 10)%N).
        -- pose proof (IHs s' ltac:(unfold ltof; cbn; lia) []) as Hrest.
           specialize (Hline cur _ _ Hrest). cbn [List.length] in *. lia.
        -- pose proof (IHs (c' :: s') ltac:(unfold ltof; cbn; lia) []) as Hrest.
           specialize (Hline cur _ _ Hrest). cbn [List.length] in *. lia.
    + pose proof (IHs s ltac:(unfold ltof; cbn; lia) (c :: cur)) as Hrest.
      cbn [List.length] in *. lia.
Qed.

(** Normalizing never makes a text longer. *)
Theorem clean_text_not_longer (t : str) : len (_clean_text t) <= len t.
Proof.
  rewrite clean_text_unfold. unfold len, splitlines.
  pose proof (lines_join_length (map scrub (replace 0 32 t)) []) as Hlen.
  unfold replace in *. rewrite !length_map in Hlen. simpl in Hlen. lia.
Qed.

(** *** Shape *)

Lemma normal_lines_words (ls : list str) :
  Forall normal_line ls ->
  exists lines : list (list str),
    Forall (fun ws => ws <> [] /\ Forall word ws) lines /\ ls = map (join [32%N]) lines.
Proof.
  induction 1 as [|l ls (Hne & ws & -> & Hws) _ (lines & Hlines & ->)].
  - exists []. split; [constructor|reflexivity].
  - exists (ws :: lines). split; [|reflexivity].
    constructor; [|exact Hlines]. split; [|exact Hws]. now intros ->.
Qed.

Lemma join_head (sep : str) (c : N) (p : str) (ps : list str) :
  exists r, join sep ((c :: p) :: ps) = c :: r.
Proof. destruct ps; simpl; eauto. Qed.

(** A non-empty string whose last character is not whitespace. *)
Lemma join_ends (sep : str) (parts : list str) :
  parts <> [] ->
  Forall (fun p => exists r c, p = r ++ [c] /\ isspace c = false) parts ->
  exists r c, join sep parts = r ++ [c] /\ isspace c = false.
Proof.
  intros Hne Hparts. induction Hparts as [|p ps (r & c & -> & Hc) _ IH]; [congruence|].
  destruct ps as [|q ps]; [simpl; eauto|].
  destruct IH as (r' & c' & Hr' & Hc'); [discriminate|].
  change (join sep ((r ++ [c]) :: q :: ps)) with ((r ++ [c]) ++ sep ++ join sep (q :: ps)).
  rewrite Hr'. exists ((r ++ [c]) ++ sep ++ r'), c'. split; [|exact Hc'].
  now rewrite <- !app_assoc.
Qed.

Lemma word_ends (w : str) : word w -> exists r c, w = r ++ [c] /\ isspace c = false.
Proof.
  intros [Hne Hw]. destruct (exists_last Hne) as (r & c & ->).
  exists r, c. split; [reflexivity|].
  rewrite Forall_app, Forall_singleton in Hw. apply Hw.
Qed.

Lemma rstrip_ends (r : str) (c : N) : isspace c = false -> rstrip (r ++ [c]) = r ++ [c].
Proof.
  intros Hc. induction r as [|x r IH]; simpl; [now rewrite Hc|].
  rewrite IH. now destruct (r ++ [c]) eqn:E; [destruct r; discriminate|].
Qed.

Lemma normal_text_stripped (lines : list (list str)) :
  Forall (fun ws => ws <> [] /\ Forall word ws) lines ->
  strip (join [10%N] (map (join [32%N]) lines)) = join [10%N] (map (join [32%N]) lines).
Proof.
  intros Hlines. destruct lines as [|ws lines]; [reflexivity|].
  assert (Hends : exists r c, join [10%N] (map (join [32%N]) (ws :: lines)) = r ++ [c]
                              /\ isspace c = false).
  { apply join_ends; [discriminate|]. apply List.Forall_map.
    eapply Forall_impl; [exact Hlines|]. intros ws' [Hne Hws].
    apply join_ends; [exact Hne|]. eapply Forall_impl; [exact Hws|]. apply word_ends. }
  apply Forall_cons in Hlines as [[Hne Hws] _].
  destruct ws as [|w ws]; [congruence|].
  apply Forall_cons in Hws as [[Hw Hchars] _].
  destruct w as [|c w]; [congruence|]. apply Forall_cons in Hchars as [[Hc _] _].
  destruct (join_head [32%N] c w ws) as [r1 Hr1].
  cbn [map]. rewrite Hr1.
  destruct (join_head [10%N] c r1 (map (join [32%N]) lines)) as [r2 Hr2].
  cbn [map] in Hends. rewrite Hr1 in Hends. rewrite Hr2 in *.
  unfold strip. simpl. rewrite Hc.
  destruct Hends as (r & d & -> & Hd). now apply rstrip_ends.
Qed.

(** The normalized text is made of lines joined by single newlines, each
    line being one or more words joined by single spaces, each word being
    one or more characters that are neither whitespace nor control
    characters; so it has no whitespace at either end: trimming it changes
    nothing. *)
Theorem clean_text_shape (t : str) :
  exists lines : list (list str),
    Forall (fun ws => ws <> [] /\ Forall word ws) lines /\
    _clean_text t = join [10%N] (map (join [32%N]) lines) /\
    strip (_clean_text t) = _clean_text t.
Proof.
  assert (Hls : Forall normal_line
                  (filter (fun line : str => line <> [])
                     (map (fun line : str => join [32%N] (split line))
                        (splitlines (map scrub (replace 0 32 t)))))).
  { apply first_pass_lines. apply splitlines_from_Forall; [|constructor].
    apply List.Forall_map, Forall_true. intros c. apply scrub_kept. }
  destruct (normal_lines_words _ Hls) as (lines & Hlines & Heq).
  exists lines. rewrite clean_text_unfold, Heq.
  split; [exact Hlines|]. split; [reflexivity|]. now apply normal_text_stripped.
Qed.

(** *** Blank text *)

Lemma split_from_nonempty (s : str) :
  forall cur, Forall (fun w : str => w <> []) (split_from cur s).
Proof.
  induction s as [|c s IH]; intros cur; simpl.
  - destruct cur; repeat constructor. now apply rev_nonempty.
  - destruct (isspace c); [|apply IH].
    destruct cur; [apply IH|]. constructor; [now apply rev_nonempty|apply IH].
Qed.

Lemma split_from_nil (s : str) :
  forall cur, split_from cur s = [] <-> cur = [] /\ Forall (fun c => isspace c = true) s.
Proof.
  induction s as [|c s IH]; intros cur; simpl.
  - destruct cur; split; try discriminate; auto. intros [? _]. discriminate.
  - destruct (isspace c) eqn:Hc.
    + destruct cur as [|d cur].
      * rewrite IH. split; intros [_ Hs]; split; auto. now apply Forall_cons in Hs as [_ Hs].
      * split; [discriminate|]. intros [? _]. discriminate.
    + rewrite IH. split; [intros [? _]; discriminate|].
      intros [_ Hs]. apply Forall_cons in Hs as [Hs _]. congruence.
Qed.

Lemma join_nil (sep : str) (parts : list str) :
  Forall (fun p : str => p <> []) parts -> join sep parts = [] -> parts = [].
Proof.
  destruct 1 as [|p ps Hp _]; [reflexivity|]. intros Hj. exfalso.
  destruct p as [|c p]; [congruence|].
  destruct (join_head sep c p ps) as [r Hr]. rewrite Hr in Hj. discriminate.
Qed.

Lemma splitlines_from_spaces (s : str) :
  forall cur,
    Forall (Forall (fun c => isspace c = true)) (splitlines_from cur s) ->
    Forall (fun c => isspace c = true) cur /\ Forall (fun c => isspace c = true) s.
Proof.
  induction s as [s IHs] using (induction_ltof1 _ (@List.length N)).
  intros cur. destruct s as [|c s]; cbn [splitlines_from].
  - destruct cur as [|d cur]; [repeat constructor|].
    intros Hl. rewrite Forall_singleton in Hl. apply Forall_rev in Hl.
    rewrite rev_involutive in Hl. split; [exact Hl|constructor].
  - destruct (islinebreak c) eqn:Hb.
    + apply islinebreak_isspace in Hb.
      destruct s as [|c' s'].
      * intros Hl. apply Forall_cons in Hl as [Hl _]. apply Forall_rev in Hl.
        rewrite rev_involutive in Hl. split; [exact Hl|repeat constructor; exact Hb].
      * destruct ((c =? 13)%N && (c' =? 10)%N) eqn:Hcr; intros Hl;
          apply Forall_cons in Hl as [Hl Hrest]; apply Forall_rev in Hl;
          rewrite rev_involutive in Hl.
        -- apply IHs in Hrest as [_ Hrest]; [|unfold ltof; cbn; lia].
           apply andb_prop in Hcr as [_ Hc']. apply N.eqb_eq in Hc'. subst c'.
           split; [exact Hl|]. repeat (constructor; [assumption || reflexivity|]). exact Hrest.
        -- apply IHs in Hrest as [_ Hrest]; [|unfold ltof; cbn; lia].
           split; [exact Hl|]. constructor; assumption.
    + intros Hl. apply IHs in Hl as [Hcur Hs]; [|unfold ltof; cbn; lia].
      apply Forall_cons in Hcur as [Hc Hcur]. split; [exact Hcur|]. constructor; assumption.
Qed.

Lemma scrubbed_space (c : N) :
  isspace (scrub (if (c =? 0)%N then 32%N else c)) = true <-> isspace c = true \/ (c < 32)%N.
Proof.
  unfold scrub. destruct (N.eqb_spec c 0) as [->|Hc0]; [cbn; split; [right; lia|reflexivity]|].
  destruct ((c =? 10) || (c =? 9) || (32 <=? c))%N eqn:Hk.
  - split; [auto|]. intros [Hsp|Hlt]; [exact Hsp|].
    rewrite !orb_true_iff, !N.eqb_eq, N.leb_le in Hk. destruct Hk as [[->| ->]|Hk]; [reflexivity..|lia].
  - split; [|reflexivity]. intros _. right.
    rewrite !orb_false_iff, !N.eqb_neq, N.leb_gt in Hk. lia.
Qed.

(** A text normalizes to the empty string exactly when each of its
    characters is whitespace or a control character; chunking the result
    then gives no chunk, whatever the configuration. *)
Theorem clean_text_blank (t : str) :
  (_clean_text t = [] <-> Forall (fun c => isspace c = true \/ (c < 32)%N) t) /\
  (_clean_text t = [] ->
   forall doc_id file_name page_no chunk_size chunk_overlap fuel,
     _split_into_chunks (_clean_text t) doc_id file_name page_no chunk_size chunk_overlap fuel
     = Some []).
Proof.
  split.
  - rewrite clean_text_unfold.
    set (cleaned := map scrub (replace 0 32 t)).
    assert (Hcleaned : Forall (fun c => isspace c = true) cleaned
                       <-> Forall (fun c => isspace c = true \/ (c < 32)%N) t).
    { unfold cleaned, replace. rewrite map_map, List.Forall_map.
      split; intros Hall; (eapply Forall_impl; [exact Hall|]); intros c; apply scrubbed_space. }
    rewrite <- Hcleaned. unfold splitlines. split.
    + intros Hnil. apply join_nil in Hnil.
      2:{ apply Forall_forall. intros l Hl. apply list_elem_of_filter in Hl. apply Hl. }
      apply (splitlines_from_spaces cleaned []).
      apply Forall_forall. intros l Hl.
      destruct (decide (join [32%N] (split l) = [])) as [Hj|Hj].
      * apply join_nil in Hj; [|apply split_from_nonempty]. now apply split_from_nil in Hj.
      * exfalso. eapply (filter_nil_not_elem_of _ _ (join [32%N] (split l)) Hnil Hj).
        apply list_elem_of_In.
        apply (in_map (fun line : str => join [32%N] (split line))).
        now apply list_elem_of_In.
    + intros Hsp.
      pose proof (splitlines_from_Forall _ cleaned Hsp [] (Forall_nil_2 _)) as Hlines.
      induction Hlines as [|l ls Hl _ IH]; [reflexivity|].
      cbn [map]. rewrite filter_cons.
      assert (Hsplit : split l = []) by (apply split_from_nil; auto).
      rewrite Hsplit. cbn [join]. destruct (decide _); [congruence|exact IH].
  - intros -> doc_id file_name page_no chunk_size chunk_overlap fuel. now destruct fuel.
Qed.

End normalizer_more.

(** ** The orchestrator: the other ends of a query *)

Section orchestrator_more.

Context `{FloatOps}.
Variable env : external.t.

Import effects.

Lemma stream_tokens_raise (tokens : list str) (e : str) :
  Forall rag_service.plain tokens ->
  forall w,
    rag_service.stream_tokens tokens (Some e) w = (Raise e, add_events w (map Token tokens)).
Proof.
  induction 1 as [|token tokens Htoken _ IH]; intros w; simpl.
  - unfold raise. now rewrite add_events_nil.
  - unfold rag_service.plain in Htoken. rewrite Htoken. unfold bind, yield. rewrite IH.
    unfold add_events. simpl. now rewrite <- app_assoc.
Qed.

(** When the generator raises [e] after fragments none of which is
    error-tagged, the stream is [sources_search], [sources],
    [generation_start], the [token] events of those fragments and one
    [error] event carrying [e]; no [done] event follows. *)
Theorem stream_query_generator_raises (query collection : str) (max_sources : Z)
    (temperature : float) (chunk : DocumentChunk.t) (chunks : list DocumentChunk.t)
    (e : str) :
  vector_service.retrieved env query collection max_sources = chunk :: chunks ->
  let stream :=
    external.generate_streaming_response env
      (rag_service._create_rag_prompt query (rag_service._prepare_context (chunk :: chunks)))
      temperature 300 in
  external.failure stream = Some e ->
  Forall rag_service.plain (external.fragments stream) ->
  rag_service.events_of (rag_service.stream_query env query collection max_sources temperature)
  = [SourcesSearch (Py.lit "Searching for relevant documents...");
     Sources (rag_service._prepare_sources (chunk :: chunks));
     GenerationStart (Py.lit "Generating answer...")]
    ++ map Token (external.fragments stream) ++ [Error e].
Proof.
  intros Hretrieved stream Hfailure Hplain.
  unfold rag_service.events_of. rewrite stream_query_run, Hretrieved. cbv zeta.
  fold stream. rewrite Hfailure, (stream_tokens_raise _ e Hplain).
  unfold add_events. cbn [emitted snd]. now rewrite <- app_assoc.
Qed.

(** What the token loop leaves behind: token events, then possibly one
    error event. *)
Lemma stream_tokens_events (tokens : list str) (failure : option str) :
  forall w,
    exists r evs,
      rag_service.stream_tokens tokens failure w = (r, add_events w evs) /\
      Forall (fun ev => match ev with Token _ | Error _ => True | _ => False end) evs.
Proof.
  induction tokens as [|token tokens IH]; intros w; simpl.
  - destruct failure; eexists _, []; (split; [|constructor]);
      unfold raise, ret; now rewrite add_events_nil.
  - destruct (Py.startswith token (Py.lit "ERROR:")).
    + exists (Ok tt), [Error token]. split; [reflexivity|repeat constructor].
    + unfold bind, yield.
      destruct (IH {| ticks := ticks w; calls := calls w;
                      emitted := emitted w ++ [Token token] |}) as (r & evs & -> & Hevs).
      exists r, (Token token :: evs). split; [|constructor; auto].
      unfold add_events. simpl. now rewrite <- app_assoc.
Qed.

(** [stream_query] never lets an exception out. Its first event is always
    [sources_search] and its last event is always an [answer] event with
    the completion mark, a [done] event or an [error] event; [sources] and
    [generation_start] appear at most as the second and third events. *)
Theorem stream_query_well_formed (query collection : str) (max_sources : Z)
    (temperature : float) :
  fst (rag_service.stream_query env query collection max_sources temperature start_of_request)
  = Ok tt /\
  exists middle final,
    rag_service.events_of (rag_service.stream_query env query collection max_sources temperature)
    = SourcesSearch (Py.lit "Searching for relevant documents...") :: middle ++ [final] /\
    match final with
    | Answer _ true | Done true | Error _ => True
    | _ => False
    end /\
    (middle = [] \/
     exists sources tokens,
       middle = Sources sources :: GenerationStart (Py.lit "Generating answer...") :: tokens /\
       Forall (fun ev => match ev with Token _ | Error _ => True | _ => False end) tokens).
Proof.
  unfold rag_service.events_of. rewrite stream_query_run.
  destruct (vector_service.retrieved env query collection max_sources) as [|chunk chunks].
  - split; [reflexivity|].
    exists [], (Answer (Py.lit "No relevant documents were found to answer this question.")
                  true).
    cbn. auto.
  - cbv zeta.
    destruct (stream_tokens_events
                (external.fragments (external.generate_streaming_response env
                   (rag_service._create_rag_prompt query
                      (rag_service._prepare_context (chunk :: chunks))) temperature 300))
                (external.failure (external.generate_streaming_response env
                   (rag_service._create_rag_prompt query
                      (rag_service._prepare_context (chunk :: chunks))) temperature 300))
                {| ticks := 0;
                   calls := vector_service.retrieval_calls env query collection max_sources
                            ++ [GenerateStreamingResponse
                                  (rag_service._create_rag_prompt query
                                     (rag_service._prepare_context (chunk :: chunks)))
                                  temperature 300];
                   emitted :=
                     [SourcesSearch (Py.lit "Searching for relevant documents...");
                      Sources (rag_service._prepare_sources (chunk :: chunks));
                      GenerationStart (Py.lit "Generating answer...")] |})
      as (r & evs & -> & Hevs).
    destruct r as [[]|e]; (split; [reflexivity|]); cbn [snd emitted add_events app].
    + exists (Sources (rag_service._prepare_sources (chunk :: chunks))
              :: GenerationStart (Py.lit "Generating answer...") :: evs), (Done true).
      split; [reflexivity|]. split; [exact I|]. right. eauto.
    + exists (Sources (rag_service._prepare_sources (chunk :: chunks))
              :: GenerationStart (Py.lit "Generating answer...") :: evs), (Error e).
      split; [reflexivity|]. split; [exact I|]. right. eauto.
Qed.

(** When the search finds chunks and the generator returns a dictionary
    with a ["content"] entry, the answer is that text as it is, the
    citations are those of the chunks retrieved, [model_info] counts them,
    the token count is the ["total_tokens"] entry of the usage, the time is
    the difference of the two clock readings, and the generator was called
    exactly once, after the search, with the caller's temperature and a
    budget of 300 tokens. *)
Theorem query_success (query collection : str) (max_sources : Z) (temperature : float)
    (chunk : DocumentChunk.t) (chunks : list DocumentChunk.t)
    (llm_response : external.llm_response) (answer : str) :
  vector_service.retrieved env query collection max_sources = chunk :: chunks ->
  let messages :=
    rag_service._create_rag_prompt query (rag_service._prepare_context (chunk :: chunks)) in
  external.generate_response env messages temperature 300 = Ok llm_response ->
  external.content llm_response = Some answer ->
  exists response w,
    rag_service.query env query collection max_sources temperature start_of_request
    = (Ok response, w) /\
    ChatResponse.answer response = answer /\
    ChatResponse.sources response = rag_service._prepare_sources (chunk :: chunks) /\
    ChatResponse.model_info response !! "chunks_used"
    = Some (InfoInt (Py.len (chunk :: chunks))) /\
    ChatResponse.model_info response !! "model"
    = Some (InfoStr (default rag_service.default_model (external.model llm_response))) /\
    ChatResponse.model_info response !! "error" = None /\
    ChatResponse.tokens_used response
    = default ∅ (external.usage llm_response) !! "total_tokens" /\
    ChatResponse.processing_time response
    = float_sub (external.time env 1) (external.time env 0) /\
    calls w = vector_service.retrieval_calls env query collection max_sources
              ++ [GenerateResponse messages temperature 300].
Proof.
  intros Hretrieved messages Hgen Hcontent.
  rewrite query_run, Hretrieved. cbv zeta. fold messages. rewrite Hgen, Hcontent.
  eexists _, _. split; [reflexivity|]. cbn [ChatResponse.answer ChatResponse.sources
    ChatResponse.model_info ChatResponse.tokens_used ChatResponse.processing_time calls].
  repeat split.
Qed.

(** When the dictionary the generator returns has no ["content"] entry,
    the response is the error response: the error sentence followed by the
    name of the missing key in quotes, no citation, and [model_info]
    holding that same text under ["error"]. *)
Theorem query_missing_content (query collection : str) (max_sources : Z)
    (temperature : float) (chunk : DocumentChunk.t) (chunks : list DocumentChunk.t)
    (llm_response : external.llm_response) :
  vector_service.retrieved env query collection max_sources = chunk :: chunks ->
  external.generate_response env
    (rag_service._create_rag_prompt query (rag_service._prepare_context (chunk :: chunks)))
    temperature 300 = Ok llm_response ->
  external.content llm_response = None ->
  exists response w,
    rag_service.query env query collection max_sources temperature start_of_request
    = (Ok response, w) /\
    ChatResponse.answer response = rag_service.error_answer_prefix ++ Py.lit "'content'" /\
    ChatResponse.sources response = [] /\
    ChatResponse.model_info response = {[ "error" := InfoStr (Py.lit "'content'") ]} /\
    ChatResponse.tokens_used response = None.
Proof.
  intros Hretrieved Hgen Hcontent.
  rewrite query_run, Hretrieved. cbv zeta. rewrite Hgen, Hcontent.
  eexists _, _. split; [reflexivity|]. repeat split.
Qed.

(** The preview of a citation is never longer than 203 characters, agrees
    with the content of the chunk on its first 200 characters, and is the
    content itself when that has at most 200 characters. *)
Theorem content_preview_bounded (chunk : DocumentChunk.t) :
  let preview := ChatSource.content_preview (rag_service.source_of_chunk chunk) in
  Py.len preview <= 203 /\
  take 200 preview = take 200 (DocumentChunk.content chunk) /\
  (Py.len (DocumentChunk.content chunk) <= 200 -> preview = DocumentChunk.content chunk) /\
  (200 < Py.len (DocumentChunk.content chunk) ->
   preview = take 200 (DocumentChunk.content chunk) ++ Py.lit "...").
Proof.
  cbv zeta. unfold rag_service.source_of_chunk. cbn [ChatSource.content_preview].
  set (content := DocumentChunk.content chunk).
  destruct (Z.ltb_spec 200 (Py.len content)) as [Hlong|Hshort].
  - assert (Hslice : Py.slice content 0 200 = take 200 content).
    { unfold Py.slice, Py.adjust. cbn [Z.ltb Z.compare].
      rewrite (Z.min_l 0), (Z.min_l 200) by (unfold Py.len in *; lia). reflexivity. }
    rewrite Hslice. unfold Py.len in *. split; [|split; [|split]].
    + rewrite length_app, length_take. change (List.length (Py.lit "...")) with 3%nat. lia.
    + rewrite take_app_le by (rewrite length_take; lia). now rewrite take_take.
    + lia.
    + reflexivity.
  - unfold Py.len in *. split; [|split; [|split]]; [lia|reflexivity|reflexivity|lia].
Qed.

End orchestrator_more.

(** ** The vector service: hits, and the indexing of chunks *)

Section vector_more.

Context `{FloatOps}.

Import effects.

Lemma collect_chunks_enough (results : external.query_result) (ids0 : list str)
    (rest : list (list str)) (rows : list (str * Metadata.t * float)) :
  external.ids results = ids0 :: rest ->
  forall i chunks w,
    (i + List.length rows <= List.length ids0)%nat ->
    vector_service.collect_chunks results i rows chunks w
    = (Ok (chunks ++ zip_with VectorService.chunk_of_hit (drop i ids0) rows), w).
Proof.
  intros Hids. induction rows as [|[[doc metadata] distance] rows IH]; intros i chunks w Hlen.
  - simpl. unfold ret. rewrite zip_with_nil_r, app_nil_r. reflexivity.
  - cbn [vector_service.collect_chunks]. unfold bind, getitem. rewrite Hids.
    cbn [lookup list_lookup]. unfold ret at 1. cbv beta iota.
    destruct (ids0 !! i) as [id|] eqn:Hid.
    2:{ apply lookup_ge_None in Hid. simpl in Hlen. lia. }
    unfold ret at 1. cbv beta iota. rewrite IH by (simpl in Hlen; lia).
    rewrite (drop_S _ _ _ Hid). cbn [zip_with]. now rewrite <- app_assoc.
Qed.

Lemma collect_chunks_short (results : external.query_result) (ids0 : list str)
    (rest : list (list str)) (rows : list (str * Metadata.t * float)) :
  external.ids results = ids0 :: rest ->
  forall i chunks w,
    (i <= List.length ids0)%nat ->
    (List.length ids0 < i + List.length rows)%nat ->
    vector_service.collect_chunks results i rows chunks w
    = (Raise (Py.lit "list index out of range"), w).
Proof.
  intros Hids.
  induction rows as [|[[doc metadata] distance] rows IH]; intros i chunks w Hi Hlen.
  - simpl in Hlen. lia.
  - cbn [vector_service.collect_chunks]. unfold bind, getitem. rewrite Hids.
    cbn [lookup list_lookup]. unfold ret at 1. cbv beta iota.
    destruct (ids0 !! i) as [id|] eqn:Hid; [|reflexivity].
    unfold ret at 1. cbv beta iota.
    apply lookup_lt_Some in Hid. apply IH; simpl in Hlen; lia.
Qed.

(** When the index answers a search with a non-empty list of documents,
    the chunks returned are those of its hits, in its order: hit [n] gets
    identifier [n], its document as content, its metadata and the
    similarity [1 - distance]; the lists of documents, metadata and
    distances are cut to the shortest of the three. When there are fewer
    identifiers than hits, the search returns no chunk at all. *)
Theorem similarity_search_hits (env : external.t) (query collection_name : str) (k : Z)
    (collection : external.collection) (emb : list (list float))
    (results : external.query_result)
    (documents0 : list str) (documents' : list (list str))
    (metadatas0 : list Metadata.t) (metadatas' : list (list Metadata.t))
    (distances0 : list float) (distances' : list (list float))
    (ids0 : list str) (ids' : list (list str)) :
  external.get_collection env collection_name = Ok collection ->
  external.encode env [query] = Ok emb ->
  external.query collection emb k = Ok results ->
  external.documents results = Some (documents0 :: documents') ->
  documents0 <> [] ->
  external.metadatas results = metadatas0 :: metadatas' ->
  external.distances results = distances0 :: distances' ->
  external.ids results = ids0 :: ids' ->
  let hits := zip (zip documents0 metadatas0) distances0 in
  ((List.length hits <= List.length ids0)%nat ->
   vector_service.retrieved env query collection_name k
   = zip_with VectorService.chunk_of_hit ids0 hits) /\
  ((List.length ids0 < List.length hits)%nat ->
   vector_service.retrieved env query collection_name k = []).
Proof.
  intros Hcollection Hemb Hquery Hdocuments Hne Hmetadatas Hdistances Hids hits.
  unfold vector_service.retrieved, vector_service.similarity_search, try_except, bind,
    record_call, of_result, getitem, raise, ret.
  cbn [ticks calls emitted start_of_request app fst snd].
  rewrite Hcollection, Hemb. cbn [ticks calls emitted app fst snd].
  rewrite Hquery, Hdocuments.
  destruct documents0 as [|d documents0]; [congruence|].
  rewrite Hmetadatas, Hdistances. cbn [lookup list_lookup].
  split; intros Hlen.
  - now rewrite (collect_chunks_enough results ids0 ids' _ Hids) by exact Hlen.
  - now rewrite (collect_chunks_short results ids0 ids' _ Hids) by (exact Hlen || lia).
Qed.

Lemma prepare_data_from (ix : VectorService.index) (chunks : list document_service.chunk) :
  forall ids documents metadatas,
    fold_left
      (fun '(ids, documents, metadatas) chunk =>
         let chunk_id := VectorService.uuid4 ix (List.length ids) in
         (ids ++ [chunk_id],
          documents ++ [document_service.content chunk],
          metadatas ++ [VectorService.metadata_of_chunk chunk]))
      chunks (ids, documents, metadatas)
    = (ids ++ map (VectorService.uuid4 ix) (seq (List.length ids) (List.length chunks)),
       documents ++ map document_service.content chunks,
       metadatas ++ map VectorService.metadata_of_chunk chunks).
Proof.
  induction chunks as [|chunk chunks IH]; intros ids documents metadatas; simpl.
  - now rewrite !app_nil_r.
  - rewrite IH, length_app, <- !app_assoc. simpl.
    now replace (List.length ids + 1)%nat with (S (List.length ids)) by lia.
Qed.

(** [add_document_chunks] makes one [add] call holding one item per chunk,
    in the order of the chunks: a fresh identifier, the content as the
    document and the chunk's provenance as metadata; it returns [True] when
    that call succeeds. When the collection is missing or the embedding
    model raises, it returns [False] and nothing is added. *)
Theorem add_document_chunks_outcome (ix : VectorService.index) (collection_name : str)
    (chunks : list document_service.chunk) :
  let ids := map (VectorService.uuid4 ix) (seq 0 (List.length chunks)) in
  let documents := map document_service.content chunks in
  let metadatas := map VectorService.metadata_of_chunk chunks in
  (forall collection embeddings,
     VectorService.get_collection ix collection_name = Ok collection ->
     VectorService.encode ix documents = Ok embeddings ->
     VectorService.add collection ids documents metadatas embeddings = Ok tt ->
     VectorService.add_document_chunks ix collection_name chunks
     = (true, [VectorService.GetCollection collection_name;
               VectorService.Encode documents;
               VectorService.Add ids documents metadatas embeddings])) /\
  ((exists e, VectorService.get_collection ix collection_name = Raise e)
   \/ (exists e, VectorService.encode ix documents = Raise e) ->
   fst (VectorService.add_document_chunks ix collection_name chunks) = false /\
   Forall (fun c => match c with VectorService.Add _ _ _ _ => False | _ => True end)
     (snd (VectorService.add_document_chunks ix collection_name chunks))).
Proof.
  cbv zeta. unfold VectorService.add_document_chunks, VectorService.prepare_data.
  rewrite prepare_data_from. cbn [app List.length].
  split.
  - intros collection embeddings -> -> ->. reflexivity.
  - intros [[e He]|[e He]].
    + rewrite He. split; [reflexivity|repeat constructor].
    + destruct (VectorService.get_collection ix collection_name);
        [rewrite He|]; (split; [reflexivity|repeat constructor]).
Qed.

End vector_more.

(** ** The language-model service *)

Section llm_more.

Context `{FloatOps}.

Import effects.

Lemma prompt_parts_unknown_role (before : list (gmap string str)) (message : gmap string str)
    (after : list (gmap string str)) (role content : str) :
  message !! "role" = Some role -> message !! "content" = Some content ->
  role <> Py.lit "system" -> role <> Py.lit "user" -> role <> Py.lit "assistant" ->
  forall parts,
    LMStudioService.prompt_parts (before ++ message :: after) parts
    = LMStudioService.prompt_parts (before ++ after) parts.
Proof.
  intros Hrole Hcontent Hs Hu Ha.
  induction before as [|m before IH]; intros parts; simpl.
  - rewrite Hrole, Hcontent. now rewrite !bool_decide_eq_false_2.
  - destruct (m !! "role"); [|reflexivity]. destruct (m !! "content"); [|reflexivity].
    repeat case_bool_decide; apply IH.
Qed.

(** A message whose role is none of [system], [user] and [assistant]
    leaves no trace in the prompt. *)
Theorem messages_to_prompt_unknown_role (before : list (gmap string str))
    (message : gmap string str) (after : list (gmap string str)) (role content : str) :
  message !! "role" = Some role -> message !! "content" = Some content ->
  role <> Py.lit "system" -> role <> Py.lit "user" -> role <> Py.lit "assistant" ->
  LMStudioService._messages_to_prompt (before ++ message :: after)
  = LMStudioService._messages_to_prompt (before ++ after).
Proof.
  intros Hrole Hcontent Hs Hu Ha. unfold LMStudioService._messages_to_prompt.
  now rewrite (prompt_parts_unknown_role before message after role content).
Qed.

Lemma messages_to_prompt_rag (query context : str) :
  LMStudioService._messages_to_prompt (rag_service._create_rag_prompt query context)
  = Ok (Py.lit "System: " ++ rag_service.system_prompt ++ [10%N; 10%N]
        ++ Py.lit "User: " ++ [10%N]
        ++ Py.lit "Answer the question based on the following document fragments."
        ++ [10%N; 10%N] ++ Py.lit "AVAILABLE SOURCES:" ++ [10%N]
        ++ context ++ [10%N; 10%N]
        ++ Py.lit "QUESTION: " ++ query ++ [10%N; 10%N]
        ++ Py.lit "Assistant:").
Proof.
  unfold LMStudioService._messages_to_prompt, rag_service._create_rag_prompt.
  cbn [LMStudioService.prompt_parts].
  rewrite !lookup_insert_eq.
  rewrite !(lookup_insert_ne _ "role" "content"), !lookup_singleton_eq by discriminate.
  rewrite (bool_decide_eq_true_2 (Py.lit "system" = Py.lit "system")) by reflexivity.
  rewrite (bool_decide_eq_false_2 (Py.lit "user" = Py.lit "system")) by (vm_compute; discriminate).
  rewrite (bool_decide_eq_true_2 (Py.lit "user" = Py.lit "user")) by reflexivity.
  cbn [app Py.join]. f_equal.
  repeat (rewrite <- ?app_assoc, <- ?app_comm_cons; f_equal).
Qed.

(** The prompt sent for a query: the system prompt after ["System: "], the
    user prompt with the context and the question after ["User: "], each
    followed by a blank line, and ["Assistant:"] at the end; building it
    never raises. *)
Theorem messages_to_prompt_of_rag_prompt (query context : str) :
  LMStudioService._messages_to_prompt (rag_service._create_rag_prompt query context)
  = Ok (Py.lit "System: " ++ rag_service.system_prompt ++ [10%N; 10%N]
        ++ Py.lit "User: " ++ [10%N]
        ++ Py.lit "Answer the question based on the following document fragments."
        ++ [10%N; 10%N] ++ Py.lit "AVAILABLE SOURCES:" ++ [10%N]
        ++ context ++ [10%N; 10%N]
        ++ Py.lit "QUESTION: " ++ query ++ [10%N; 10%N]
        ++ Py.lit "Assistant:").
Proof. apply messages_to_prompt_rag. Qed.



(** The end-of-stream line stops the reading: the lines after
    ["data: [DONE]"], and a failure of the connection after it, yield
    nothing. *)
Theorem nothing_after_done (lm : LMStudioService.server) (before after : list str)
    (broken : option str) :
  LMStudioService.read_lines lm (before ++ Py.lit "data: [DONE]" :: after) broken
  = LMStudioService.read_lines lm before None.
Proof.
  induction before as [|line before IH]; simpl.
  - reflexivity.
  - destruct (Py.startswith line (Py.lit "data: ")); [|exact IH].
    case_bool_decide; [reflexivity|].
    destruct (LMStudioService.choice_text lm _) as [[|c content]| |e]; auto.
    now rewrite IH.
Qed.

Lemma stream_tokens_no_failure (tokens : list str) :
  forall w,
    exists evs,
      rag_service.stream_tokens tokens None w = (Ok tt, add_events w evs) /\
      Forall (fun ev => match ev with Token _ | Error _ => True | _ => False end) evs.
Proof.
  induction tokens as [|token tokens IH]; intros w; simpl.
  - exists []. split; [|constructor]. unfold ret. now rewrite add_events_nil.
  - destruct (Py.startswith token (Py.lit "ERROR:")).
    + exists [Error token]. split; [reflexivity|repeat constructor].
    + unfold bind, yield.
      destruct (IH {| ticks := ticks w; calls := calls w;
                      emitted := emitted w ++ [Token token] |}) as (evs & -> & Hevs).
      exists (Token token :: evs). split; [|constructor; auto].
      unfold add_events. simpl. now rewrite <- app_assoc.
Qed.

(** With this service as the generator, the stream of a query that found
    chunks always ends with [done], also after an [error] event; and when
    the server is not running the events after [generation_start] are the
    [error] event with the report and [done]. *)
Theorem stream_query_over_lm_studio (env : external.t) (lm : LMStudioService.server)
    (query collection : str) (max_sources : Z) (temperature : float)
    (chunk : DocumentChunk.t) (chunks : list DocumentChunk.t) :
  (forall messages temperature max_tokens,
     external.generate_streaming_response env messages temperature max_tokens
     = LMStudioService.generate_streaming_response lm messages temperature max_tokens) ->
  vector_service.retrieved env query collection max_sources = chunk :: chunks ->
  (exists evs,
     rag_service.events_of
       (rag_service.stream_query env query collection max_sources temperature)
     = [SourcesSearch (Py.lit "Searching for relevant documents...");
        Sources (rag_service._prepare_sources (chunk :: chunks));
        GenerationStart (Py.lit "Generating answer...")]
       ++ evs ++ [Done true] /\
     Forall (fun ev => match ev with Token _ | Error _ => True | _ => False end) evs) /\
  (LMStudioService.check_server_status lm = false ->
   rag_service.events_of
     (rag_service.stream_query env query collection max_sources temperature)
   = [SourcesSearch (Py.lit "Searching for relevant documents...");
      Sources (rag_service._prepare_sources (chunk :: chunks));
      GenerationStart (Py.lit "Generating answer...");
      Error (Py.lit "ERROR: LM Studio server is not running!");
      Done true]).
Proof.
  intros Hgenerator Hretrieved. unfold rag_service.events_of.
  rewrite stream_query_run, Hretrieved. cbv zeta. rewrite Hgenerator.
  unfold LMStudioService.generate_streaming_response.
  rewrite messages_to_prompt_rag. split.
  - set (stream := if LMStudioService.check_server_status lm then _ else _).
    assert (Hfailure : external.failure stream = None)
      by (unfold stream; now destruct (LMStudioService.check_server_status lm)).
    rewrite Hfailure.
    destruct (stream_tokens_no_failure (external.fragments stream)
                {| ticks := 0;
                   calls := vector_service.retrieval_calls env query collection max_sources
                            ++ [GenerateStreamingResponse
                                  (rag_service._create_rag_prompt query
                                     (rag_service._prepare_context (chunk :: chunks)))
                                  temperature 300];
                   emitted :=
                     [SourcesSearch (Py.lit "Searching for relevant documents...");
                      Sources (rag_service._prepare_sources (chunk :: chunks));
                      GenerationStart (Py.lit "Generating answer...")] |})
      as (evs & -> & Hevs).
    exists evs. split; [|exact Hevs]. cbn [snd emitted add_events app].
    reflexivity.
  - intros ->. reflexivity.
Qed.

End llm_more.

(** ** The properties above, on concrete runs *)

Section more_runs.

Local Existing Instance thousandths.

Import effects.
Import scenario.

Local Abbreviation question := (Py.lit "What do cats do?").
Local Abbreviation cats_chunk :=
  (@DocumentChunk.mk thousandths (Py.lit "c1") (Py.lit "d1") 0 (Py.lit "Cats purr.") cats_metadata
     (Some 750)).
Local Abbreviation dropped :=
  (deployment (Ok cats_index) (Ok [[1; 2]]) (Ok purring)
     {| external.fragments := [Py.lit "They "];
        external.failure := Some (Py.lit "connection reset") |}).
Local Abbreviation answering := (deployment (Ok cats_index) (Ok [[1; 2]]) (Ok purring) silent).
Local Abbreviation no_content :=
  (deployment (Ok cats_index) (Ok [[1; 2]])
     (Ok {| external.content := None; external.usage := None; external.model := None |})
     silent).
Local Abbreviation failing :=
  (deployment (Ok cats_index) (Ok [[1; 2]]) (Ok purring)
     {| external.fragments :=
          [Py.lit "Cats "; Py.lit "ERROR: connection lost"; Py.lit "purr"];
        external.failure := None |}).
Local Abbreviation stopped_server :=
  {| LMStudioService.models_status := Raise (Py.lit "All connection attempts failed");
     LMStudioService.post_stream :=
       fun _ _ _ => {| LMStudioService.lines := []; LMStudioService.broken := None |};
     LMStudioService.choice_text := fun _ => LMStudioService.NotJson |}.
Local Abbreviation over_stopped_server :=
  {| external.get_collection := fun _ => Ok cats_index;
     external.encode := fun _ => Ok [[1; 2]];
     external.generate_response := fun _ _ _ => Ok purring;
     external.generate_streaming_response :=
       LMStudioService.generate_streaming_response stopped_server;
     external.time := fun n => 1000 * Z.of_nat n |}.

Lemma stream_query_error_then_done_witness :
  vector_service.retrieved failing question (Py.lit "default") 5 = [cats_chunk] /\
  rag_service.events_of (rag_service.stream_query failing question (Py.lit "default") 5 100)
  = [SourcesSearch (Py.lit "Searching for relevant documents...");
     Sources (rag_service._prepare_sources [cats_chunk]);
     GenerationStart (Py.lit "Generating answer...")]
    ++ map Token [Py.lit "Cats "] ++ [Error (Py.lit "ERROR: connection lost"); Done true].
Proof.
  split; [vm_compute; reflexivity|].
  apply (stream_query_error_then_done failing question (Py.lit "default") 5 100
           cats_chunk [] [Py.lit "Cats "] (Py.lit "ERROR: connection lost") [Py.lit "purr"]).
  - vm_compute; reflexivity.
  - reflexivity.
  - repeat constructor.
  - vm_compute; reflexivity.
Defined.

Lemma stream_query_generator_raises_witness :
  vector_service.retrieved dropped question (Py.lit "default") 5 = [cats_chunk] /\
  rag_service.events_of (rag_service.stream_query dropped question (Py.lit "default") 5 100)
  = [SourcesSearch (Py.lit "Searching for relevant documents...");
     Sources (rag_service._prepare_sources [cats_chunk]);
     GenerationStart (Py.lit "Generating answer...")]
    ++ map Token [Py.lit "They "] ++ [Error (Py.lit "connection reset")].
Proof.
  split; [vm_compute; reflexivity|].
  apply (stream_query_generator_raises dropped question (Py.lit "default") 5 100
           cats_chunk [] (Py.lit "connection reset")).
  - vm_compute; reflexivity.
  - reflexivity.
  - repeat constructor.
Defined.

Lemma query_success_witness :
  vector_service.retrieved answering question (Py.lit "default") 5 = [cats_chunk] /\
  exists response w,
    rag_service.query answering question (Py.lit "default") 5 100 start_of_request
    = (Ok response, w) /\
    ChatResponse.answer response = Py.lit "Answer: they purr." /\
    ChatResponse.sources response = rag_service._prepare_sources [cats_chunk] /\
    ChatResponse.model_info response !! "chunks_used" = Some (InfoInt 1) /\
    ChatResponse.tokens_used response = Some 42.
Proof.
  split; [vm_compute; reflexivity|].
  destruct (query_success answering question (Py.lit "default") 5 100 cats_chunk []
              purring (Py.lit "Answer: they purr."))
    as (response & w & Hrun & Hanswer & Hsources & Hused & _ & _ & Htokens & _).
  - vm_compute; reflexivity.
  - reflexivity.
  - reflexivity.
  - exists response, w. repeat split; assumption.
Defined.

Lemma query_missing_content_witness :
  vector_service.retrieved no_content question (Py.lit "default") 5 = [cats_chunk] /\
  exists response w,
    rag_service.query no_content question (Py.lit "default") 5 100 start_of_request
    = (Ok response, w) /\
    ChatResponse.answer response = rag_service.error_answer_prefix ++ Py.lit "'content'" /\
    ChatResponse.sources response = [] /\
    ChatResponse.model_info response = {[ "error" := InfoStr (Py.lit "'content'") ]} /\
    ChatResponse.tokens_used response = None.
Proof.
  split; [vm_compute; reflexivity|].
  apply (query_missing_content no_content question (Py.lit "default") 5 100 cats_chunk []
           {| external.content := None; external.usage := None; external.model := None |}).
  - vm_compute; reflexivity.
  - reflexivity.
  - reflexivity.
Defined.

Lemma similarity_search_hits_witness :
  vector_service.retrieved answering question (Py.lit "default") 5
  = zip_with VectorService.chunk_of_hit [Py.lit "c1"]
      [(Py.lit "Cats purr.", cats_metadata, 250)].
Proof.
  apply (similarity_search_hits answering question (Py.lit "default") 5 cats_index [[1; 2]]
           cats_hit [Py.lit "Cats purr."] [] [cats_metadata] [] [250] [] [Py.lit "c1"] []);
    first [reflexivity | discriminate].
Defined.

Lemma messages_to_prompt_unknown_role_witness :
  LMStudioService._messages_to_prompt
    ([] ++ {[ "role" := Py.lit "tool"; "content" := Py.lit "42" ]}
        :: [ {[ "role" := Py.lit "user"; "content" := Py.lit "Hi" ]} ])
  = LMStudioService._messages_to_prompt
      ([] ++ [ {[ "role" := Py.lit "user"; "content" := Py.lit "Hi" ]} ]).
Proof.
  apply (messages_to_prompt_unknown_role [] _ _ (Py.lit "tool") (Py.lit "42")).
  - vm_compute; reflexivity.
  - vm_compute; reflexivity.
  - intros Heq. vm_compute in Heq. discriminate Heq.
  - intros Heq. vm_compute in Heq. discriminate Heq.
  - intros Heq. vm_compute in Heq. discriminate Heq.
Defined.

Lemma stream_query_over_lm_studio_witness :
  vector_service.retrieved over_stopped_server question (Py.lit "default") 5 = [cats_chunk] /\
  rag_service.events_of
    (rag_service.stream_query over_stopped_server question (Py.lit "default") 5 100)
  = [SourcesSearch (Py.lit "Searching for relevant documents...");
     Sources (rag_service._prepare_sources [cats_chunk]);
     GenerationStart (Py.lit "Generating answer...");
     Error (Py.lit "ERROR: LM Studio server is not running!");
     Done true].
Proof.
  split; [vm_compute; reflexivity|].
  apply (stream_query_over_lm_studio over_stopped_server stopped_server question
           (Py.lit "default") 5 100 cats_chunk []).
  - reflexivity.
  - vm_compute; reflexivity.
  - reflexivity.
Defined.

End more_runs.

(** ** The document store: processing and deletion *)

Section document_store.

Variable Any : Type.
Variable settings : config.Settings.

Local Abbreviation chunk_size := (config.chunk_size settings).
Local Abbreviation chunk_overlap := (config.chunk_overlap settings).

Hypothesis overlap_nonneg : 0 <= chunk_overlap.
Hypothesis window_clear : chunk_overlap + 100 <= chunk_size.

Lemma split_runs (text doc_id : str) (file_name : option str) (page_no : option Z)
    (fuel : nat) :
  (List.length text <= fuel)%nat ->
  exists cs,
    document_service._split_into_chunks text doc_id file_name page_no chunk_size
      chunk_overlap fuel = Some cs.
Proof.
  intros Hfuel. unfold document_service._split_into_chunks.
  apply loop_terminates; try assumption; simpl; unfold Py.len; lia.
Qed.

Lemma chunk_pages_runs (document_id file_name : str) (pages : list (Z * str)) :
  exists fuel0, forall fuel, (fuel0 <= fuel)%nat ->
    forall chunks,
    exists per_page,
      DocumentService.chunk_pages settings fuel document_id file_name pages chunks
      = Some (chunks ++ concat per_page) /\
      Forall2 (fun (page : Z * str) page_chunks =>
                 document_service._split_into_chunks
                   (document_service._clean_text page.2) document_id (Some file_name)
                   (Some page.1) chunk_size chunk_overlap fuel = Some page_chunks)
        pages per_page.
Proof.
  induction pages as [|[page_num page_text] pages (fuel0 & IH)].
  - exists 0%nat. intros fuel _ chunks. exists []. simpl. rewrite app_nil_r. auto.
  - exists (Nat.max (List.length (document_service._clean_text page_text)) fuel0).
    intros fuel Hfuel chunks. simpl.
    destruct (split_runs (document_service._clean_text page_text) document_id
                (Some file_name) (Some page_num) fuel) as (page_chunks & Hpage); [lia|].
    rewrite Hpage.
    destruct (IH fuel ltac:(lia) (chunks ++ page_chunks)) as (per_page & -> & Hrest).
    exists (page_chunks :: per_page). simpl. rewrite app_assoc. split; [reflexivity|].
    constructor; [exact Hpage|exact Hrest].
Qed.

Lemma extract_chunks_runs (f : DocumentService.file) (document_id file_name : str) :
  exists fuel0, forall fuel, (fuel0 <= fuel)%nat ->
    exists outcome,
      DocumentService.extract_chunks settings fuel f document_id file_name = Some outcome.
Proof.
  unfold DocumentService.extract_chunks.
  destruct (bool_decide (DocumentService.file_extension f = Py.lit ".pdf")).
  - destruct (DocumentService._extract_pdf_pages f) as [pages|e].
    + destruct (chunk_pages_runs document_id file_name pages) as (fuel0 & Hrun).
      exists fuel0. intros fuel Hfuel.
      destruct (Hrun fuel Hfuel []) as (per_page & -> & _). eauto.
    + exists 0%nat. eauto.
  - destruct (DocumentService._extract_text f) as [text_content|e].
    + exists (List.length (document_service._clean_text text_content)). intros fuel Hfuel.
      destruct (split_runs (document_service._clean_text text_content) document_id
                  (Some file_name) None fuel Hfuel) as (cs & ->). eauto.
    + exists 0%nat. eauto.
Qed.

(** [_process_document] on a registered document, under a configuration
    with a non-negative overlap at least 100 below the chunk size: it
    returns, never raises, and leaves the document either [COMPLETED], with
    its chunks stored under its id, their number in [chunks_count] and the
    time in [processed_at], or [FAILED], with no chunks stored and the two
    fields as they were. The other fields of the document, and the other
    documents and their chunks, are untouched. *)
Theorem process_document_outcome (now : Z) (f : DocumentService.file)
    (st : DocumentService.state Any) (document_id : str)
    (info : DocumentService.DocumentInfo Any) :
  DocumentService.documents st !! document_id = Some info ->
  exists fuel0, forall fuel, (fuel0 <= fuel)%nat ->
    exists returned st' info',
      DocumentService._process_document settings fuel now f st document_id
      = Some (returned, st') /\
      DocumentService.get_document st' document_id = Some info' /\
      ((DocumentService.status info' = DocumentService.COMPLETED /\
        exists chunks,
          returned = Some chunks /\
          DocumentService.document_chunks st' !! document_id = Some chunks /\
          DocumentService.chunks_count info' = Py.len chunks /\
          DocumentService.processed_at info' = Some now)
       \/
       (DocumentService.status info' = DocumentService.FAILED /\
        returned = None /\
        DocumentService.document_chunks st' !! document_id = None /\
        DocumentService.chunks_count info' = DocumentService.chunks_count info /\
        DocumentService.processed_at info' = DocumentService.processed_at info)) /\
      (DocumentService.id info' = DocumentService.id info /\
       DocumentService.filename info' = DocumentService.filename info /\
       DocumentService.collection info' = DocumentService.collection info /\
       DocumentService.file_size info' = DocumentService.file_size info /\
       DocumentService.content_type info' = DocumentService.content_type info /\
       DocumentService.created_at info' = DocumentService.created_at info /\
       DocumentService.metadata info' = DocumentService.metadata info) /\
      (forall other, other <> document_id ->
         DocumentService.documents st' !! other = DocumentService.documents st !! other /\
         DocumentService.document_chunks st' !! other
         = DocumentService.document_chunks st !! other).
Proof.
  intros Hinfo.
  destruct (extract_chunks_runs f document_id (DocumentService.filename info))
    as (fuel0 & Hrun).
  exists fuel0. intros fuel Hfuel. destruct (Hrun fuel Hfuel) as (outcome & Houtcome).
  unfold DocumentService._process_document, DocumentService.get_document.
  rewrite Hinfo. cbn [DocumentService.set_status DocumentService.filename].
  rewrite Houtcome. destruct outcome as [chunks|e].
  - eexists _, _, _. split; [reflexivity|]. cbn [DocumentService.documents
      DocumentService.document_chunks]. rewrite !lookup_insert_eq.
    split; [reflexivity|]. split; [left; split; [reflexivity|]; eauto|].
    split; [repeat split|].
    intros other Hother. now rewrite !lookup_insert_ne.
  - eexists _, _, _. split; [reflexivity|]. cbn [DocumentService.documents
      DocumentService.document_chunks]. rewrite lookup_insert_eq, lookup_delete_eq.
    split; [reflexivity|]. split; [right; repeat split|].
    split; [repeat split|].
    intros other Hother. now rewrite lookup_insert_ne, lookup_delete_ne.
Qed.







End document_store.

Section document_deletion.

Variable Any : Type.

(** [delete_document] returns [True] exactly when the document is
    registered and the removal of its file does not raise; the document
    and its chunks are then gone. Otherwise it returns [False] and the
    store is as it was: in particular, a document whose file cannot be
    removed stays registered. The other documents are never touched. *)
Theorem delete_document_outcome (d : DocumentService.disk)
    (st : DocumentService.state Any) (document_id : str) :
  let deleted := (DocumentService.delete_document d st document_id).1 in
  let st' := (DocumentService.delete_document d st document_id).2 in
  (deleted = true <->
   is_Some (DocumentService.get_document st document_id) /\
   (DocumentService.exists_ d = Ok false \/
    DocumentService.exists_ d = Ok true /\ DocumentService.unlink d = Ok tt)) /\
  (deleted = true ->
   DocumentService.get_document st' document_id = None /\
   DocumentService.document_chunks st' !! document_id = None) /\
  (deleted = false -> st' = st) /\
  (forall other, other <> document_id ->
     DocumentService.get_document st' other = DocumentService.get_document st other /\
     DocumentService.document_chunks st' !! other
     = DocumentService.document_chunks st !! other).
Proof.
  cbv zeta. unfold DocumentService.delete_document, DocumentService.get_document.
  destruct (DocumentService.documents st !! document_id) as [info|] eqn:Hinfo.
  2:{ cbn. split; [|split; [|split]]; try discriminate; auto.
      split; [discriminate|]. intros (Hsome & _). now destruct Hsome. }
  destruct (DocumentService.exists_ d) as [[|]|e].
  - destruct (DocumentService.unlink d) as [[]|e]; cbn.
    + rewrite !lookup_delete_eq. split; [|split; [|split]].
      * split; [|reflexivity]. intros _. split; [eauto|]. right. auto.
      * auto.
      * discriminate.
      * intros other Hother. now rewrite !lookup_delete_ne.
    + split; [|split; [|split]]; try discriminate; auto.
      split; [discriminate|]. intros (_ & [Hno|(_ & Hno)]); discriminate.
  - cbn. rewrite !lookup_delete_eq. split; [|split; [|split]].
    + split; [|reflexivity]. intros _. split; [eauto|]. left. reflexivity.
    + auto.
    + discriminate.
    + intros other Hother. now rewrite !lookup_delete_ne.
  - cbn. split; [|split; [|split]]; try discriminate; auto.
    split; [discriminate|]. intros (_ & [Hno|(Hno & _)]); discriminate.
Qed.

End document_deletion.

(** ** The indexing of an uploaded document *)

Section indexing.

Variable Any : Type.

Lemma seconds_slept_app (trace trace' : list RAGService.call) :
  RAGService.seconds_slept (trace ++ trace')
  = RAGService.seconds_slept trace + RAGService.seconds_slept trace'.
Proof.
  induction trace as [|c trace IH]; simpl; [reflexivity|].
  unfold RAGService.seconds_slept in *. simpl. destruct c; lia.
Qed.

Lemma wait_trace (sv : RAGService.services Any) (document_id : str) (retries : nat) :
  forall reads doc_info trace,
    exists added,
      (RAGService.wait sv document_id retries reads doc_info trace).2 = trace ++ added /\
      Forall (fun c => ~ RAGService.vector_call c) added /\
      RAGService.seconds_slept added <= Z.of_nat retries /\
      (List.length added <= 2 * retries)%nat.
Proof.
  induction retries as [|retries IH]; intros reads [info|] trace; simpl.
  - exists []. rewrite app_nil_r.
    destruct (RAGService.in_progress _); simpl;
      (split; [reflexivity|]; split; [constructor|lia]).
  - exists []. rewrite app_nil_r. simpl. split; [reflexivity|]. split; [constructor|lia].
  - destruct (RAGService.in_progress _).
    + destruct (IH (S reads)
                  (DocumentService.get_document (RAGService.store sv reads) document_id)
                  (trace ++ [RAGService.Sleep 1; RAGService.GetDocument document_id]))
        as (added & -> & Hcalls & Hslept & Hlen).
      exists ([RAGService.Sleep 1; RAGService.GetDocument document_id] ++ added).
      rewrite <- app_assoc. split; [reflexivity|]. split; [|split].
      * repeat constructor; auto.
      * rewrite seconds_slept_app. change (RAGService.seconds_slept [_; _]) with (1 + 0). lia.
      * simpl. lia.
    + exists []. rewrite app_nil_r. simpl. split; [reflexivity|]. split; [constructor|lia].
  - exists []. rewrite app_nil_r. simpl. split; [reflexivity|]. split; [constructor|lia].
Qed.

(** [process_document_for_rag] never indexes anything. Whatever the
    document service holds and however the processing goes, it returns
    [False], calls neither [create_collection] nor [add_document_chunks],
    sleeps 30 seconds at most and reads the document 32 times at most:
    [_get_document_chunks] returns the empty list for every document. *)
Theorem process_document_for_rag_never_indexes (sv : RAGService.services Any)
    (document_id collection : str) :
  let outcome := RAGService.process_document_for_rag sv document_id collection in
  outcome.1 = false /\
  Forall (fun c => ~ RAGService.vector_call c) outcome.2 /\
  RAGService.seconds_slept outcome.2 <= 30 /\
  (List.length outcome.2 <= 62)%nat /\
  (forall reads, RAGService._get_document_chunks sv reads document_id = []).
Proof.
  cbv zeta. unfold RAGService.process_document_for_rag.
  assert (Hchunks : forall reads, RAGService._get_document_chunks sv reads document_id = []).
  { intros reads. unfold RAGService._get_document_chunks. now destruct (DocumentService.get_document _ _). }
  destruct (DocumentService.get_document (RAGService.store sv 0) document_id) as [info|].
  2:{ simpl. repeat split; auto; repeat constructor; auto; lia. }
  destruct (wait_trace sv document_id 30 1 (Some info)
              [RAGService.GetDocument document_id]) as (added & Htrace & Hcalls & Hslept & Hlen).
  destruct (RAGService.wait sv document_id 30 1 (Some info)
              [RAGService.GetDocument document_id]) as [[[info'|e] reads] trace];
    cbn [fst snd] in Htrace; subst trace.
  - destruct (negb _); [|rewrite Hchunks]; cbn [fst snd].
    + split; [reflexivity|]. split; [constructor; auto|].
      split; [|split; [simpl; lia|exact Hchunks]].
      rewrite !seconds_slept_app. change (RAGService.seconds_slept [RAGService.GetDocument document_id]) with 0. lia.
    + split; [reflexivity|]. split; [|split; [|split; [|exact Hchunks]]].
      * constructor; [auto|]. rewrite Forall_app. split; [exact Hcalls|repeat constructor; auto].
      * rewrite !seconds_slept_app.
        change (RAGService.seconds_slept [RAGService.GetDocument document_id]) with 0. lia.
      * simpl. rewrite length_app. simpl. lia.
  - cbn [fst snd]. split; [reflexivity|]. split; [constructor; auto|].
    split; [|split; [simpl; lia|exact Hchunks]].
    rewrite !seconds_slept_app. change (RAGService.seconds_slept [RAGService.GetDocument document_id]) with 0. lia.
Qed.

(** A document that is already [COMPLETED] (or [FAILED]) when first read
    is not waited for. A document that stays in progress is waited for
    during exactly 30 seconds and read 31 times before the task gives up. *)
Theorem process_document_for_rag_waiting (sv : RAGService.services Any)
    (document_id collection : str) :
  (forall info,
     DocumentService.get_document (RAGService.store sv 0) document_id = Some info ->
     RAGService.in_progress (DocumentService.status info) = false ->
     RAGService.seconds_slept
       (RAGService.process_document_for_rag sv document_id collection).2 = 0) /\
  ((forall reads, exists info,
      DocumentService.get_document (RAGService.store sv reads) document_id = Some info /\
      RAGService.in_progress (DocumentService.status info) = true) ->
   (RAGService.process_document_for_rag sv document_id collection).2
   = RAGService.GetDocument document_id
     :: concat (replicate 30 [RAGService.Sleep 1; RAGService.GetDocument document_id])).
Proof.
  unfold RAGService.process_document_for_rag. split.
  - intros info -> Hdone. simpl. rewrite Hdone.
    assert (Hchunks : forall reads, RAGService._get_document_chunks sv reads document_id = []).
    { intros reads. unfold RAGService._get_document_chunks. now destruct (DocumentService.get_document _ _). }
    destruct (negb _); [reflexivity|]. now rewrite Hchunks.
  - intros Hbusy.
    assert (Hwait : forall retries reads info trace,
              RAGService.in_progress (DocumentService.status info) = true ->
              exists info',
                RAGService.wait sv document_id retries reads (Some info) trace
                = (Ok info', (reads + retries)%nat,
                   trace ++ concat (replicate retries
                                      [RAGService.Sleep 1; RAGService.GetDocument document_id]))
                /\ RAGService.in_progress (DocumentService.status info') = true).
    { induction retries as [|retries IH]; intros reads info trace Hinfo; simpl; rewrite Hinfo.
      - exists info. rewrite app_nil_r, Nat.add_0_r. auto.
      - destruct (Hbusy reads) as (next & -> & Hnext).
        destruct (IH (S reads) next
                    (trace ++ [RAGService.Sleep 1; RAGService.GetDocument document_id]) Hnext)
          as (info' & -> & Hinfo').
        exists info'. split; [|exact Hinfo'].
        replace (S reads + retries)%nat with (reads + S retries)%nat by lia.
        now rewrite <- app_assoc. }
    destruct (Hbusy 0%nat) as (info & -> & Hinfo).
    destruct (Hwait 30%nat 1%nat info [RAGService.GetDocument document_id] Hinfo)
      as (info' & -> & Hinfo').
    assert (Hpending : bool_decide (DocumentService.value (DocumentService.status info')
                                    = Py.lit "completed") = false).
    { destruct (DocumentService.status info'); try reflexivity; discriminate Hinfo'. }
    rewrite Hpending. reflexivity.
Qed.

End indexing.

(** ** The document store, on concrete runs *)

Section store_runs.

Import archive.

Lemma process_document_outcome_witness :
  exists fuel0, forall fuel, (fuel0 <= fuel)%nat ->
    exists returned st' info',
      DocumentService._process_document config.defaults fuel 1700000060 cats_pdf cats_store
        (Py.lit "d1") = Some (returned, st') /\
      DocumentService.get_document st' (Py.lit "d1") = Some info' /\
      (DocumentService.status info' = DocumentService.COMPLETED
       \/ DocumentService.status info' = DocumentService.FAILED).
Proof.
  destruct (process_document_outcome unit config.defaults ltac:(simpl; lia) ltac:(simpl; lia)
              1700000060 cats_pdf cats_store (Py.lit "d1") cats_info)
    as (fuel0 & Hrun).
  - vm_compute; reflexivity.
  - exists fuel0. intros fuel Hfuel.
    destruct (Hrun fuel Hfuel) as (returned & st' & info' & Heq & Hget & Hstatus & _).
    exists returned, st', info'. split; [exact Heq|]. split; [exact Hget|].
    destruct Hstatus as [(Hdone & _)|(Hfailed & _)]; auto.
Defined.



End store_runs.
